(** * The tool-call handler of the real-estate feed MCP server (src/index.ts)

    A shallow embedding of the [CallToolRequestSchema] handler: the ten
    [case]s of its [switch], the [default] branch and the [catch] block,
    together with the JavaScript operations they use (property reads,
    [||], [?.], [toLowerCase], [includes], [filter], [parseInt],
    [JSON.stringify]).  The remote API is an oracle [apiClient]; every call
    made to it and every [console.error] is recorded in a log. *)

From Stdlib Require Import String Ascii List ZArith Bool Lia.
From Stdlib Require DecimalString DecimalZ.
Import ListNotations.
Local Open Scope string_scope.
Local Open Scope Z_scope.

(** ** JavaScript values

    [args], [response.data] and the request bodies are JSON-shaped values.
    Numbers are the integers (what the schemas declare and what a count is)
    and [NaN], which [parseInt] may produce; a number with a fraction is
    outside the model.  Strings are sequences of code units below 256.  An
    object is the list of its own properties in enumeration order; a
    property read finds the first binding of a key. *)

#[warnings="-register-all"]
Inductive value : Type :=
  | VUndefined
  | VNull
  | VBool (b : bool)
  | VNum (n : Z)
  | VNaN
  | VStr (s : string)
  | VArr (elems : list value)
  | VObj (props : list (string * value)).

Section ValueInd.
Variable P : value -> Prop.
Hypothesis Hundef : P VUndefined.
Hypothesis Hnull : P VNull.
Hypothesis Hbool : forall b, P (VBool b).
Hypothesis Hnum : forall n, P (VNum n).
Hypothesis Hnan : P VNaN.
Hypothesis Hstr : forall s, P (VStr s).
Hypothesis Harr : forall xs, Forall P xs -> P (VArr xs).
Hypothesis Hobj : forall ps, Forall (fun kv => P (snd kv)) ps -> P (VObj ps).

Fixpoint value_nested_ind (v : value) : P v :=
  match v with
  | VUndefined => Hundef
  | VNull => Hnull
  | VBool b => Hbool b
  | VNum n => Hnum n
  | VNaN => Hnan
  | VStr s => Hstr s
  | VArr xs =>
      Harr xs
        ((fix all (l : list value) : Forall P l :=
            match l with
            | [] => Forall_nil P
            | x :: l' => Forall_cons x (value_nested_ind x) (all l')
            end) xs)
  | VObj ps =>
      Hobj ps
        ((fix all (l : list (string * value)) : Forall (fun kv => P (snd kv)) l :=
            match l with
            | [] => Forall_nil _
            | kv :: l' =>
                Forall_cons (P := fun kv => P (snd kv)) kv
                  (value_nested_ind (snd kv)) (all l')
            end) ps)
  end.
End ValueInd.

(** [ToBoolean]: the falsy values are undefined, null, false, 0, NaN and
    the empty string. *)
Definition truthy (v : value) : bool :=
  match v with
  | VUndefined | VNull | VNaN => false
  | VBool b => b
  | VNum n => negb (n =? 0)
  | VStr s => negb (s =? "")%string
  | VArr _ | VObj _ => true
  end.

(** [a || b] *)
Definition js_or (a b : value) : value := if truthy a then a else b.

Fixpoint own_property (k : string) (ps : list (string * value)) : option value :=
  match ps with
  | [] => None
  | (k', v) :: ps' => if (k =? k')%string then Some v else own_property k ps'
  end.

(** ** Thrown values

    What the handler's [catch] can receive: the [Error] of the [default]
    branch, a [TypeError] of the engine, or the rejection of an axios call,
    which carries [response] when the remote answered (only [response.data]
    is read). *)

Inductive thrown : Type :=
  | Error (message : string)
  | TypeError (message : string)
  | AxiosError (message : string) (response_data : option value).

Definition error_message (e : thrown) : string :=
  match e with
  | Error m | TypeError m | AxiosError m _ => m
  end.

(** [error.response?.data] *)
Definition error_response_data (e : thrown) : value :=
  match e with
  | AxiosError _ (Some d) => d
  | _ => VUndefined
  end.

(** ** Requests, log and the handler's monad *)

Inductive http_method : Type := GET | POST.

(** One call on [apiClient]: [get(path)], [get(path, {params})] or
    [post(path, body)]. *)
Record HttpCallSpec : Type := mkCall {
  call_method : http_method;
  call_path : string;
  call_params : option value;
  call_body : option value
}.

Inductive HttpOutcome : Type :=
  | Resolved (data : value)
  | Rejected (message : string) (response_data : option value).

Inductive event : Type :=
  | EvHttp (call : HttpCallSpec)
  | EvConsoleError (label : string) (shown : value).

(** A computation yields the events it performed and either a thrown value
    or a result. *)
Definition M (A : Type) : Type := list event * (thrown + A).

Definition ret {A} (a : A) : M A := ([], inr a).

Definition throw {A} (e : thrown) : M A := ([], inl e).

Definition bind {A B} (m : M A) (k : A -> M B) : M B :=
  match m with
  | (log, inl e) => (log, inl e)
  | (log, inr a) => let (log', r) := k a in ((log ++ log')%list, r)
  end.

Notation "x <- m ;; k" := (bind m (fun x => k))
  (at level 61, m at next level, right associativity).

(** [try { body } catch (error) { handler }] *)
Definition try_catch {A} (body : M A) (handler : thrown -> M A) : M A :=
  match body with
  | (log, inl e) => let (log', r) := handler e in ((log ++ log')%list, r)
  | (log, inr a) => (log, inr a)
  end.

Definition console_error (label : string) (shown : value) : M unit :=
  ([EvConsoleError label shown], inr tt).

Fixpoint http_calls (log : list event) : list HttpCallSpec :=
  match log with
  | [] => []
  | EvHttp c :: log' => c :: http_calls log'
  | EvConsoleError _ _ :: log' => http_calls log'
  end.

(** ** Built-ins *)

Definition quote (s : string) : string := "'" ++ s ++ "'".

(** The engine's wording of the two [TypeError]s the handler can meet. *)
Definition cannot_read (what : string) (k : string) : thrown :=
  TypeError ("Cannot read properties of " ++ what ++ " (reading " ++ quote k ++ ")").

Definition not_a_function (expr : string) : thrown :=
  TypeError (expr ++ " is not a function").

(** The value of [v.k] when [v] is neither undefined nor null, for the
    property names the handler reads: none of them is an index or lives on a
    prototype, except [length] of a string or array. *)
Definition member (v : value) (k : string) : value :=
  match v with
  | VObj ps => match own_property k ps with Some x => x | None => VUndefined end
  | VStr s =>
      if (k =? "length")%string then VNum (Z.of_nat (String.length s))
      else VUndefined
  | VArr xs =>
      if (k =? "length")%string then VNum (Z.of_nat (List.length xs))
      else VUndefined
  | _ => VUndefined
  end.

(** [v.k] *)
Definition get_prop (v : value) (k : string) : M value :=
  match v with
  | VUndefined => throw (cannot_read "undefined" k)
  | VNull => throw (cannot_read "null" k)
  | _ => ret (member v k)
  end.

(** [v?.k] *)
Definition get_prop_opt (v : value) (k : string) : M value :=
  match v with
  | VUndefined | VNull => ret VUndefined
  | _ => get_prop v k
  end.

(** [String.prototype.toLowerCase] on code units below 256: the capitals
    A-Z and the Latin-1 capitals (0xC0-0xDE but the multiplication sign) move
    up by 32. *)
Definition lower_unit (c : ascii) : ascii :=
  let n := nat_of_ascii c in
  if ((65 <=? n) && (n <=? 90)
      || (192 <=? n) && (n <=? 222) && negb (n =? 215))%nat
  then ascii_of_nat (n + 32) else c.

Fixpoint toLowerCase (s : string) : string :=
  match s with
  | EmptyString => EmptyString
  | String c s' => String (lower_unit c) (toLowerCase s')
  end.

Fixpoint startsWith (s p : string) {struct p} : bool :=
  match p, s with
  | EmptyString, _ => true
  | String _ _, EmptyString => false
  | String a p', String b s' => Ascii.eqb a b && startsWith s' p'
  end.

(** [String.prototype.includes] *)
Fixpoint includes (s sub : string) : bool :=
  startsWith s sub
  || match s with
     | EmptyString => false
     | String _ s' => includes s' sub
     end.

(** [recv.toLowerCase()] where [recv] is the value of the expression
    [expr]. *)
Definition call_toLowerCase (expr : string) (recv : value) : M string :=
  match recv with
  | VUndefined => throw (cannot_read "undefined" "toLowerCase")
  | VNull => throw (cannot_read "null" "toLowerCase")
  | VStr s => ret (toLowerCase s)
  | _ => throw (not_a_function (expr ++ ".toLowerCase"))
  end.

(** [Array.prototype.filter] with a callback that may throw. *)
Fixpoint filterM (f : value -> M bool) (xs : list value) : M (list value) :=
  match xs with
  | [] => ret []
  | x :: xs' =>
      keep <- f x ;;
      rest <- filterM f xs' ;;
      ret (if (keep : bool) then x :: rest else rest)
  end.

(** [recv.filter(f)] *)
Definition call_filter (expr : string) (recv : value) (f : value -> M bool)
  : M (list value) :=
  match recv with
  | VUndefined => throw (cannot_read "undefined" "filter")
  | VNull => throw (cannot_read "null" "filter")
  | VArr xs => filterM f xs
  | _ => throw (not_a_function (expr ++ ".filter"))
  end.

Definition is_space (c : ascii) : bool :=
  let n := nat_of_ascii c in
  ((9 <=? n) && (n <=? 13) || (n =? 32) || (n =? 160))%nat.

Fixpoint skip_space (s : string) : string :=
  match s with
  | String c s' => if is_space c then skip_space s' else s
  | EmptyString => s
  end.

Definition digit_value (radix : Z) (c : ascii) : option Z :=
  let n := Z.of_nat (nat_of_ascii c) in
  let d := if (48 <=? n) && (n <=? 57) then Some (n - 48)
           else if (97 <=? n) && (n <=? 122) then Some (n - 87)
           else if (65 <=? n) && (n <=? 90) then Some (n - 55)
           else None in
  match d with
  | Some k => if k <? radix then Some k else None
  | None => None
  end.

(** The longest run of leading digits, [None] when there is none. *)
Fixpoint leading_digits (radix : Z) (acc : option Z) (s : string) : option Z :=
  match s with
  | EmptyString => acc
  | String c s' =>
      match digit_value radix c with
      | Some d =>
          leading_digits radix
            (Some (match acc with Some a => a * radix + d | None => d end)) s'
      | None => acc
      end
  end.

(** [parseInt(s)] with no radix argument: leading white space, a sign, the
    prefix 0x for base 16, then digits; [NaN] when no digit follows.  The
    result is exact; the engine rounds it to a double, which changes it only
    beyond 2^53. *)
Definition parseInt (s : string) : value :=
  let s1 := skip_space s in
  let '(neg, s2) :=
    match s1 with
    | String "-" r => (true, r)
    | String "+" r => (false, r)
    | _ => (false, s1)
    end in
  let '(radix, s3) :=
    match s2 with
    | String "0" (String "x" r) | String "0" (String "X" r) => (16, r)
    | _ => (10, s2)
    end in
  match leading_digits radix None s3 with
  | Some n => VNum (if neg then - n else n)
  | None => VNaN
  end.

(** ** [JSON.stringify(v, null, 2)] *)

Definition dquote : string := String (ascii_of_nat 34) EmptyString.
Definition newline : string := String (ascii_of_nat 10) EmptyString.
Definition gap : string := "  ".

Definition hex_digit (n : nat) : string :=
  String (nth n (list_ascii_of_string "0123456789abcdef") "0"%char) EmptyString.

Definition escape_unit (c : ascii) : string :=
  let n := nat_of_ascii c in
  if (n =? 8)%nat then "\b"
  else if (n =? 9)%nat then "\t"
  else if (n =? 10)%nat then "\n"
  else if (n =? 12)%nat then "\f"
  else if (n =? 13)%nat then "\r"
  else if (n =? 34)%nat then "\" ++ dquote
  else if (n =? 92)%nat then "\\"
  else if (n <? 32)%nat then "\u00" ++ hex_digit (n / 16) ++ hex_digit (n mod 16)
  else String c EmptyString.

Fixpoint escape (s : string) : string :=
  match s with
  | EmptyString => EmptyString
  | String c s' => escape_unit c ++ escape s'
  end.

Definition QuoteJSONString (s : string) : string := dquote ++ escape s ++ dquote.

(** [Number::toString] of an integer, in plain decimal digits.  That is the
    text the engine writes for the safe integers, those between -2^53 and
    2^53; beyond them the engine's numbers are not all the integers and it
    writes the shortest digits that read back, in exponent form from 10^21.
    What is stated about the digits of a number is stated for
    [safe_numbers]. *)
Definition NumberToString (n : Z) : string :=
  DecimalString.NilZero.string_of_int (Z.to_int n).

(** The elements of [partial] separated by a comma, a line break and the
    indentation, between the brackets [opening] and [closing]. *)
Definition wrap_partial (opening closing indent : string) (partial : list string)
  : string :=
  match partial with
  | [] => opening ++ closing
  | _ =>
      let stepback := indent in
      let indent := indent ++ gap in
      opening ++ newline ++ indent
      ++ String.concat ("," ++ newline ++ indent) partial
      ++ newline ++ stepback ++ closing
  end.

(** [SerializeJSONProperty]: [None] is undefined.  An undefined array
    element is written null, an undefined property is left out, NaN is
    written null. *)
Fixpoint SerializeJSONProperty (indent : string) (v : value) : option string :=
  match v with
  | VUndefined => None
  | VNull | VNaN => Some "null"
  | VBool true => Some "true"
  | VBool false => Some "false"
  | VNum n => Some (NumberToString n)
  | VStr s => Some (QuoteJSONString s)
  | VArr xs =>
      let partial :=
        map (fun x =>
               match SerializeJSONProperty (indent ++ gap) x with
               | Some str => str
               | None => "null"
               end) xs in
      Some (wrap_partial "[" "]" indent partial)
  | VObj ps =>
      let partial :=
        flat_map (fun kv =>
               match SerializeJSONProperty (indent ++ gap) (snd kv) with
               | Some str => [QuoteJSONString (fst kv) ++ ": " ++ str]
               | None => []
               end) ps in
      Some (wrap_partial "{" "}" indent partial)
  end.

Definition JSON_stringify (v : value) : option string :=
  SerializeJSONProperty "" v.

(** ** [JSON.parse]

    The reader a client applies to the text of a result.  It accepts the
    JSON grammar over the values of this model: a number with a fraction
    or an exponent and a [\u] escape of a code unit above 255 are outside
    the model and refused.  [fuel] bounds the nesting and the number of
    elements read; [JSON_parse] gives it the length of the text. *)

Definition is_ws (c : ascii) : bool :=
  let n := nat_of_ascii c in
  ((n =? 9) || (n =? 10) || (n =? 13) || (n =? 32))%nat.

Fixpoint skip_ws (s : string) : string :=
  match s with
  | String c s' => if is_ws c then skip_ws s' else s
  | EmptyString => s
  end.

Definition hex_value (c : ascii) : option nat :=
  let n := nat_of_ascii c in
  if ((48 <=? n) && (n <=? 57))%nat then Some (n - 48)%nat
  else if ((97 <=? n) && (n <=? 102))%nat then Some (n - 87)%nat
  else if ((65 <=? n) && (n <=? 70))%nat then Some (n - 55)%nat
  else None.

(** The code unit of the escape [\u h1 h2 h3 h4]. *)
Definition unit_of_hex (h1 h2 h3 h4 : ascii) : option ascii :=
  match hex_value h1, hex_value h2, hex_value h3, hex_value h4 with
  | Some a, Some b, Some c, Some d =>
      let n := (((a * 16 + b) * 16 + c) * 16 + d)%nat in
      if (n <? 256)%nat then Some (ascii_of_nat n) else None
  | _, _, _, _ => None
  end.

(** The code unit of a two-character escape. *)
Definition unescape (e : ascii) : option ascii :=
  let n := nat_of_ascii e in
  if ((n =? 34) || (n =? 92) || (n =? 47))%nat then Some e
  else if (n =? 98)%nat then Some (ascii_of_nat 8)
  else if (n =? 102)%nat then Some (ascii_of_nat 12)
  else if (n =? 110)%nat then Some (ascii_of_nat 10)
  else if (n =? 114)%nat then Some (ascii_of_nat 13)
  else if (n =? 116)%nat then Some (ascii_of_nat 9)
  else None.

(** The characters of a string literal after its opening quote, up to the
    closing one. *)
Fixpoint parse_string_body (s : string) : option (string * string) :=
  match s with
  | EmptyString => None
  | String c rest =>
      if (nat_of_ascii c =? 34)%nat then Some (EmptyString, rest)
      else if (nat_of_ascii c =? 92)%nat then
        match rest with
        | EmptyString => None
        | String e rest1 =>
            if (nat_of_ascii e =? 117)%nat then
              match rest1 with
              | String h1 (String h2 (String h3 (String h4 rest2))) =>
                  match unit_of_hex h1 h2 h3 h4, parse_string_body rest2 with
                  | Some u, Some (str, r) => Some (String u str, r)
                  | _, _ => None
                  end
              | _ => None
              end
            else
              match unescape e, parse_string_body rest1 with
              | Some u, Some (str, r) => Some (String u str, r)
              | _, _ => None
              end
        end
      else if (nat_of_ascii c <? 32)%nat then None
      else
        match parse_string_body rest with
        | Some (str, r) => Some (String c str, r)
        | None => None
        end
  end.

Definition digit (c : ascii) : option (Decimal.uint -> Decimal.uint) :=
  match c with
  | "0"%char => Some Decimal.D0
  | "1"%char => Some Decimal.D1
  | "2"%char => Some Decimal.D2
  | "3"%char => Some Decimal.D3
  | "4"%char => Some Decimal.D4
  | "5"%char => Some Decimal.D5
  | "6"%char => Some Decimal.D6
  | "7"%char => Some Decimal.D7
  | "8"%char => Some Decimal.D8
  | "9"%char => Some Decimal.D9
  | _ => None
  end.

(** The longest run of leading decimal digits and what follows it. *)
Fixpoint parse_digits (s : string) : Decimal.uint * string :=
  match s with
  | EmptyString => (Decimal.Nil, s)
  | String c rest =>
      match digit c with
      | Some d => let (ds, r) := parse_digits rest in (d ds, r)
      | None => (Decimal.Nil, s)
      end
  end.

(** A number may stop before [s]: no digit, fraction or exponent follows. *)
Definition number_stops (s : string) : bool :=
  match s with
  | EmptyString => true
  | String c _ =>
      match digit c with
      | Some _ => false
      | None => negb (Ascii.eqb c "." || Ascii.eqb c "e" || Ascii.eqb c "E")
      end
  end.

(** An integer literal: an optional minus sign, then 0 or digits that do not
    start with 0. *)
Definition parse_number (s : string) : option (value * string) :=
  let '(negative, s1) :=
    match s with
    | String "-" r => (true, r)
    | _ => (false, s)
    end in
  let '(ds, rest) := parse_digits s1 in
  let literal :=
    if number_stops rest
    then Some (VNum (Z.of_int (if negative then Decimal.Neg ds else Decimal.Pos ds)),
               rest)
    else None in
  match ds with
  | Decimal.Nil => None
  | Decimal.D0 Decimal.Nil => literal
  | Decimal.D0 _ => None
  | _ => literal
  end.

(** [CreateDataProperty]: a repeated key replaces the value it had. *)
Fixpoint define_property (k : string) (v : value) (ps : list (string * value))
  : list (string * value) :=
  match ps with
  | [] => [(k, v)]
  | (k', v') :: ps' =>
      if (k =? k')%string then (k', v) :: ps'
      else (k', v') :: define_property k v ps'
  end.

Definition object_of (members : list (string * value)) : list (string * value) :=
  fold_left (fun ps kv => define_property (fst kv) (snd kv) ps) members [].

(** [s] with the literal [word] taken off its front. *)
Fixpoint expect (word s : string) : option string :=
  match word, s with
  | EmptyString, _ => Some s
  | String a word', String b s' =>
      if Ascii.eqb a b then expect word' s' else None
  | String _ _, EmptyString => None
  end.

(** [s] after white space and the character [c], when that comes next. *)
Definition next_is (c : ascii) (s : string) : option string :=
  match skip_ws s with
  | String c' r => if Ascii.eqb c c' then Some r else None
  | EmptyString => None
  end.

Fixpoint parse_value (fuel : nat) (s : string) {struct fuel}
  : option (value * string) :=
  match fuel with
  | O => None
  | S fuel' =>
      match skip_ws s with
      | EmptyString => None
      | String c rest =>
          if Ascii.eqb c "n" then
            option_map (pair VNull) (expect "ull" rest)
          else if Ascii.eqb c "t" then
            option_map (pair (VBool true)) (expect "rue" rest)
          else if Ascii.eqb c "f" then
            option_map (pair (VBool false)) (expect "alse" rest)
          else if (nat_of_ascii c =? 34)%nat then
            match parse_string_body rest with
            | Some (str, r) => Some (VStr str, r)
            | None => None
            end
          else if Ascii.eqb c "[" then
            match next_is "]" rest with
            | Some r => Some (VArr [], r)
            | None =>
                match parse_elements fuel' rest with
                | Some (xs, r) => Some (VArr xs, r)
                | None => None
                end
            end
          else if Ascii.eqb c "{" then
            match next_is "}" rest with
            | Some r => Some (VObj [], r)
            | None =>
                match parse_members fuel' rest with
                | Some (ms, r) => Some (VObj (object_of ms), r)
                | None => None
                end
            end
          else parse_number (String c rest)
      end
  end

with parse_elements (fuel : nat) (s : string) {struct fuel}
  : option (list value * string) :=
  match fuel with
  | O => None
  | S fuel' =>
      match parse_value fuel' s with
      | None => None
      | Some (v, rest) =>
          match next_is "," rest with
          | Some r =>
              match parse_elements fuel' r with
              | Some (vs, r') => Some (v :: vs, r')
              | None => None
              end
          | None =>
              match next_is "]" rest with
              | Some r => Some ([v], r)
              | None => None
              end
          end
      end
  end

with parse_members (fuel : nat) (s : string) {struct fuel}
  : option (list (string * value) * string) :=
  match fuel with
  | O => None
  | S fuel' =>
      match next_is (ascii_of_nat 34) s with
      | None => None
      | Some rest =>
          match parse_string_body rest with
          | None => None
          | Some (k, rest1) =>
              match next_is ":" rest1 with
              | None => None
              | Some rest2 =>
                  match parse_value fuel' rest2 with
                  | None => None
                  | Some (v, rest3) =>
                      match next_is "," rest3 with
                      | Some r =>
                          match parse_members fuel' r with
                          | Some (ms, r') => Some ((k, v) :: ms, r')
                          | None => None
                          end
                      | None =>
                          match next_is "}" rest3 with
                          | Some r => Some ([(k, v)], r)
                          | None => None
                          end
                      end
                  end
              end
          end
      end
  end.

(** [JSON.parse]: one value, then nothing but white space. *)
Definition JSON_parse (text : string) : option value :=
  match parse_value (S (String.length text)) text with
  | Some (v, rest) =>
      match skip_ws rest with
      | EmptyString => Some v
      | String _ _ => None
      end
  | None => None
  end.

(** The values JSON can carry: no undefined and no NaN, and no key twice
    in an object. *)
Fixpoint distinct (ks : list string) : bool :=
  match ks with
  | [] => true
  | k :: ks' => negb (existsb (String.eqb k) ks') && distinct ks'
  end.

Fixpoint is_json (v : value) : bool :=
  match v with
  | VUndefined | VNaN => false
  | VNull | VBool _ | VNum _ | VStr _ => true
  | VArr xs => forallb is_json xs
  | VObj ps => distinct (map fst ps) && forallb (fun kv => is_json (snd kv)) ps
  end.

(** The text of a value that is not undefined. *)
Definition ser (indent : string) (v : value) : string :=
  match SerializeJSONProperty indent v with
  | Some str => str
  | None => "null"
  end.

(** Fuel that suffices to read a value back. *)
Fixpoint need (v : value) : nat :=
  match v with
  | VArr xs => S (fold_right (fun x acc => S (need x + acc))%nat O xs)
  | VObj ps => S (fold_right (fun kv acc => S (need (snd kv) + acc))%nat O ps)
  | _ => 1%nat
  end.

(** White space only. *)
Definition blank (w : string) : Prop := forall s, skip_ws (w ++ s) = skip_ws s.

(** [s] starts with a character that is not white space and closes
    nothing. *)
Definition starts_value (s : string) : bool :=
  match s with
  | EmptyString => false
  | String c _ => negb (is_ws c || Ascii.eqb c "]" || Ascii.eqb c "}")
  end.

(** The line of a property in the text of an object. *)
Definition member_text (indent : string) (kv : string * value) : string :=
  QuoteJSONString (fst kv) ++ ": " ++ ser indent (snd kv).

(** What it means for a value to be read back from its text. *)
Definition reads_back (v : value) : Prop :=
  is_json v = true ->
  forall indent, blank indent ->
    SerializeJSONProperty indent v = Some (ser indent v)
    /\ (forall rest, starts_value (ser indent v ++ rest) = true)
    /\ (need v <= String.length (ser indent v))%nat
    /\ forall fuel rest,
         (need v <= fuel)%nat -> number_stops rest = true ->
         parse_value fuel (ser indent v ++ rest) = Some (v, rest).

(** ** The result of a tool call *)

Record TextContent : Type := mkText {
  type : string;
  text : option string
}.

Record CallToolResult : Type := mkResult {
  content : list TextContent
}.

(** [{ content: [{ type: "text", text: JSON.stringify(v, null, 2) }] }] *)
Definition text_result (v : value) : CallToolResult :=
  mkResult [mkText "text" (JSON_stringify v)].

(** ** The handler *)

Section Handler.

(** Configuration read at start-up and the remote API behind axios. *)
Variable FEED_ID : string.
Variable apiClient : HttpCallSpec -> HttpOutcome.

Definition perform (c : HttpCallSpec) : M value :=
  ([EvHttp c],
   match apiClient c with
   | Resolved data => inr data
   | Rejected message response => inl (AxiosError message response)
   end).

(** [(await apiClient.get(path, { params })).data] *)
Definition apiClient_get (path : string) (params : option value) : M value :=
  perform (mkCall GET path params None).

(** [(await apiClient.post(path, body)).data] *)
Definition apiClient_post (path : string) (body : value) : M value :=
  perform (mkCall POST path None (Some body)).

Definition entity_filter (entity_type : string) (entity_value : value) : value :=
  VObj [("entity_type", VStr entity_type); ("entity_value", entity_value)].

Definition usage_note_cities : string :=
  "Use one of these exact city names with the search_by_city tool".

Definition usage_note_reports : string :=
  "Use one of these exact report types with search_by_report_type tool".

(** The [switch (toolName)] of the [try] block. *)
Definition dispatch (toolName : string) (args : value) : M CallToolResult :=
  if (toolName =? "list_available_entity_types")%string then
    data <- apiClient_get ("/api/content/entity_types/" ++ FEED_ID) None ;;
    ret (text_result data)
  else if (toolName =? "list_entity_values")%string then
    entity_type <- get_prop args "entity_type" ;;
    data <- apiClient_get ("/api/content/entity_values/" ++ FEED_ID)
              (Some (VObj [("entity_type", entity_type)])) ;;
    ret (text_result data)
  else if (toolName =? "lookup_cities")%string then
    data <- apiClient_get ("/api/content/entity_values/" ++ FEED_ID)
              (Some (VObj [("entity_type", VStr "city")])) ;;
    partial_name <- get_prop args "partial_name" ;;
    partialNameLower <- call_toLowerCase "args.partial_name" partial_name ;;
    cities <- get_prop data "unique_entity_value" ;;
    matchedCities <-
      call_filter "response.data.unique_entity_value" cities
        (fun city =>
           lowered <- call_toLowerCase "city" city ;;
           ret (includes lowered partialNameLower)) ;;
    ret (text_result
           (VObj [("status", VStr "success");
                  ("matched_cities", VArr matchedCities);
                  ("count", VNum (Z.of_nat (List.length matchedCities)));
                  ("usage_note", VStr usage_note_cities)]))
  else if (toolName =? "search_by_report_type")%string then
    page_num <- get_prop args "page_num" ;;
    page_size <- get_prop args "page_size" ;;
    report_type <- get_prop args "report_type" ;;
    data <- apiClient_post "/api/content/feed"
              (VObj [("feed_id", parseInt FEED_ID);
                     ("page_num", js_or page_num (VNum 0));
                     ("page_size", js_or page_size (VNum 10));
                     ("entity_details",
                      VArr [entity_filter "Report" report_type])]) ;;
    ret (text_result data)
  else if (toolName =? "search_by_city")%string then
    page_num <- get_prop args "page_num" ;;
    page_size <- get_prop args "page_size" ;;
    city_name <- get_prop args "city_name" ;;
    data <- apiClient_post "/api/content/feed"
              (VObj [("feed_id", parseInt FEED_ID);
                     ("page_num", js_or page_num (VNum 0));
                     ("page_size", js_or page_size (VNum 10));
                     ("entity_details",
                      VArr [entity_filter "city" city_name])]) ;;
    ret (text_result data)
  else if (toolName =? "search_reports_by_date_range")%string then
    start_date <- get_prop args "start_date" ;;
    end_date <- get_prop args "end_date" ;;
    page_num <- get_prop args "page_num" ;;
    page_size <- get_prop args "page_size" ;;
    data <- apiClient_post "/api/content/feed"
              (VObj [("feed_id", parseInt FEED_ID);
                     ("published_date_from", start_date);
                     ("published_date_to", end_date);
                     ("page_num", js_or page_num (VNum 0));
                     ("page_size", js_or page_size (VNum 10))]) ;;
    ret (text_result data)
  else if (toolName =? "advanced_content_search")%string then
    published_date_from <- get_prop args "published_date_from" ;;
    published_date_to <- get_prop args "published_date_to" ;;
    page_num <- get_prop args "page_num" ;;
    page_size <- get_prop args "page_size" ;;
    entity_details <- get_prop args "entity_details" ;;
    data <- apiClient_post "/api/content/feed"
              (VObj [("feed_id", parseInt FEED_ID);
                     ("published_date_from", published_date_from);
                     ("published_date_to", published_date_to);
                     ("page_num", page_num);
                     ("page_size", page_size);
                     ("entity_details", entity_details)]) ;;
    ret (text_result data)
  else if (toolName =? "get_latest_market_report_by_city")%string then
    city_name <- get_prop args "city_name" ;;
    data <- apiClient_post "/api/content/feed"
              (VObj [("feed_id", parseInt FEED_ID);
                     ("page_num", VNum 0);
                     ("page_size", VNum 1);
                     ("entity_details",
                      VArr [entity_filter "city" city_name;
                            entity_filter "Report"
                              (VStr "Monthly Report: Major Cities")])]) ;;
    ret (text_result data)
  else if (toolName =? "get_latest_price_analysis_by_city")%string then
    city_name <- get_prop args "city_name" ;;
    data <- apiClient_post "/api/content/feed"
              (VObj [("feed_id", parseInt FEED_ID);
                     ("page_num", VNum 0);
                     ("page_size", VNum 1);
                     ("entity_details",
                      VArr [entity_filter "city" city_name;
                            entity_filter "Report"
                              (VStr "Monthly Report: Major Cities")])]) ;;
    ret (text_result data)
  else if (toolName =? "list_report_types")%string then
    data <- apiClient_get ("/api/content/entity_values/" ++ FEED_ID)
              (Some (VObj [("entity_type", VStr "Report")])) ;;
    report_types <- get_prop data "unique_entity_value" ;;
    again <- get_prop data "unique_entity_value" ;;
    count <- get_prop again "length" ;;
    ret (text_result
           (VObj [("status", VStr "success");
                  ("report_types", report_types);
                  ("count", count);
                  ("usage_note", VStr usage_note_reports)]))
  else
    throw (Error ("Unknown tool: " ++ toolName)).

(** The [catch (error)] block. *)
Definition on_error (error : thrown) : M CallToolResult :=
  remote_message <- get_prop_opt (error_response_data error) "message" ;;
  let errorMessage :=
    js_or (js_or remote_message (VStr (error_message error)))
          (VStr "Unknown error occurred") in
  _ <- console_error "Tool error:" errorMessage ;;
  ret (text_result
         (VObj [("status", VStr "error");
                ("message", errorMessage);
                ("details", js_or (error_response_data error) VNull)])).

(** [server.setRequestHandler(CallToolRequestSchema, async (request) => ...)]
    with [toolName = request.params.name] and
    [args = request.params.arguments]. *)
Definition callToolHandler (toolName : string) (args : value) : M CallToolResult :=
  try_catch (dispatch toolName args) on_error.

End Handler.

(** The names of the catalog returned for [ListToolsRequestSchema]. *)
Definition catalog : list string :=
  [ "list_available_entity_types"; "list_entity_values"; "search_by_report_type";
    "lookup_cities"; "search_by_city"; "list_report_types";
    "search_reports_by_date_range"; "advanced_content_search";
    "get_latest_market_report_by_city"; "get_latest_price_analysis_by_city" ].

(** The error envelope serialized by the [catch] block. *)
Definition error_envelope (message details : value) : value :=
  VObj [("status", VStr "error"); ("message", message); ("details", details)].

Definition silent {A} (m : M A) : Prop := fst m = [].

(** [error.response?.data?.message] never throws. *)
Definition remote_message (e : thrown) : value :=
  match error_response_data e with
  | VUndefined | VNull => VUndefined
  | d => member d "message"
  end.

Definition errorMessage (e : thrown) : value :=
  js_or (js_or (remote_message e) (VStr (error_message e)))
        (VStr "Unknown error occurred").

(** Undefined and null, the values a property read throws on. *)
Definition nullish (v : value) : bool :=
  match v with
  | VUndefined | VNull => true
  | _ => false
  end.

(** [apiClient.post('/api/content/feed', body)] *)
Definition feed_call (body : value) : HttpCallSpec :=
  mkCall POST "/api/content/feed" None (Some body).

(** The query both latest-report tools post for a city. *)
Definition latest_report_query (FEED_ID : string) (city_name : value) : value :=
  VObj [("feed_id", parseInt FEED_ID);
        ("page_num", VNum 0);
        ("page_size", VNum 1);
        ("entity_details",
         VArr [VObj [("entity_type", VStr "city"); ("entity_value", city_name)];
               VObj [("entity_type", VStr "Report");
                     ("entity_value", VStr "Monthly Report: Major Cities")]])].

(** A remote that answers every call the same way. *)
Definition fixture (outcome : HttpOutcome) : HttpCallSpec -> HttpOutcome :=
  fun _ => outcome.

(** The tools that default their pagination with [||]. *)
Definition defaulting_tools : list string :=
  ["search_by_report_type"; "search_by_city"; "search_reports_by_date_range"].

(** The two tools that ask for the latest report of a city. *)
Definition latest_tools : list string :=
  ["get_latest_market_report_by_city"; "get_latest_price_analysis_by_city"].

(** A query whose [page_size] is an integer of the declared range 1-50. *)
Definition page_size_in_range (body : value) : Prop :=
  exists n, own_property "page_size" (match body with VObj ps => ps | _ => [] end)
            = Some (VNum n) /\ 1 <= n <= 50.

(** The call [lookup_cities] makes for the list of cities. *)
Definition city_values_call (FEED_ID : string) : HttpCallSpec :=
  mkCall GET ("/api/content/entity_values/" ++ FEED_ID)
    (Some (VObj [("entity_type", VStr "city")])) None.

(** The payload [lookup_cities] serializes. *)
Definition lookup_payload (matchedCities : list string) : value :=
  VObj [("status", VStr "success");
        ("matched_cities", VArr (map VStr matchedCities));
        ("count", VNum (Z.of_nat (List.length matchedCities)));
        ("usage_note",
         VStr "Use one of these exact city names with the search_by_city tool")].

(** ** The tool listing

    What the [ListToolsRequestSchema] handler returns, as the object it is
    written as. *)

Definition string_param (description : string) : value :=
  VObj [("type", VStr "string"); ("description", VStr description)].

Definition integer_param (description : string) (default : Z) : value :=
  VObj [("type", VStr "integer"); ("description", VStr description);
        ("default", VNum default)].

Definition page_num_param : value :=
  integer_param "Page number for pagination (0-based)" 0.

Definition page_size_param : value :=
  integer_param "Number of items per page (1-50)" 10.

Definition tool (name description : string) (properties : list (string * value))
  (required : list string) : value :=
  VObj [("name", VStr name);
        ("description", VStr description);
        ("inputSchema",
         VObj [("type", VStr "object");
               ("properties", VObj properties);
               ("required", VArr (map VStr required))])].

Definition listTools : value :=
  VObj [("tools", VArr [
    tool "list_available_entity_types"
      "Get a list of all available entity types in the real estate content feed that can be used for filtering content"
      [] [];
    tool "list_entity_values"
      "Get all available values for a specific entity type (e.g., all report types, all city names"
      [("entity_type",
        string_param "The entity type to get values for (e.g., 'Report', 'city')")]
      ["entity_type"];
    tool "search_by_report_type"
      "Search for real estate content by report type. Use list_report_types first if you're unsure about the exact report type to use."
      [("report_type",
        string_param "Report type to search for (e.g., 'Market Report', 'Price Analysis', etc.)");
       ("page_num", page_num_param);
       ("page_size", page_size_param)]
      ["report_type"];
    tool "lookup_cities"
      "Get the exact city name formats available in the database before searching. Use this to find the correct city name format for use with search_by_city."
      [("partial_name",
        string_param "Partial city name to find matches for (e.g., 'New York', 'Los Angeles')")]
      ["partial_name"];
    tool "search_by_city"
      "Search for real estate content by city name. IMPORTANT: The API requires exact city name matching. Use lookup_cities first to find the correct name format to use."
      [("city_name",
        string_param "Exact city name to search for (must match format in database exactly)");
       ("page_num", page_num_param);
       ("page_size", page_size_param)]
      ["city_name"];
    tool "list_report_types"
      "Get a list of all available report types in the database"
      [] [];
    tool "search_reports_by_date_range"
      "Search for real estate content published within a specific date range"
      [("start_date", string_param "Start date in YYYY-MM-DD format");
       ("end_date", string_param "End date in YYYY-MM-DD format");
       ("page_num", page_num_param);
       ("page_size", page_size_param)]
      ["start_date"; "end_date"];
    tool "advanced_content_search"
      "Advanced search for real estate content with multiple filter criteria"
      [("published_date_from", string_param "Start date in YYYY-MM-DD format");
       ("published_date_to", string_param "End date in YYYY-MM-DD format");
       ("page_num", page_num_param);
       ("page_size", page_size_param);
       ("entity_details",
        VObj [("type", VStr "array");
              ("description",
               VStr "List of entity filters to apply (e.g., report type, city)");
              ("items",
               VObj [("type", VStr "object");
                     ("properties",
                      VObj [("entity_type",
                             string_param "Type of entity to filter by (e.g., 'Report', 'city')");
                            ("entity_value",
                             string_param "Value of the entity to filter by. IMPORTANT: The API requires exact city name matching when filtering by city. Use lookup_cities first to find the correct name format to use.")]);
                     ("required",
                      VArr [VStr "entity_type"; VStr "entity_value"])])])]
      ["page_num"; "page_size"];
    tool "get_latest_market_report_by_city"
      "Get the latest market report for a specific city. Use lookup_cities first if you're unsure of the exact city name."
      [("city_name", string_param "City name (e.g., 'New York', 'Los Angeles')")]
      ["city_name"];
    tool "get_latest_price_analysis_by_city"
      "Get the latest price analysis report for a specific city"
      [("city_name", string_param "City name (e.g., 'New York', 'Los Angeles')")]
      ["city_name"]
  ])].

(** The elements of an array value. *)
Definition elements (v : value) : list value :=
  match v with
  | VArr xs => xs
  | _ => []
  end.

(** The own properties of an object value. *)
Definition properties_of (v : value) : list (string * value) :=
  match v with
  | VObj ps => ps
  | _ => []
  end.

Definition listed_tools : list value := elements (member listTools "tools").

Definition listed_names : list value :=
  map (fun t => member t "name") listed_tools.

(** ** Groups of tools, by what their [case] does *)

(** The tools that post a query to the feed endpoint. *)
Definition feed_tools : list string :=
  [ "search_by_report_type"; "search_by_city"; "search_reports_by_date_range";
    "advanced_content_search"; "get_latest_market_report_by_city";
    "get_latest_price_analysis_by_city" ].

(** The tools whose [case] reads a property of [args] before it calls the
    remote API. *)
Definition argument_first_tools : list string :=
  "list_entity_values" :: feed_tools.

(** The tools that return the remote body as it is. *)
Definition passthrough_tools : list string :=
  "list_available_entity_types" :: "list_entity_values" :: feed_tools.

(** The properties of [args] each [case] reads. *)
Definition reads (toolName : string) : list string :=
  if (toolName =? "list_entity_values")%string then ["entity_type"]
  else if (toolName =? "lookup_cities")%string then ["partial_name"]
  else if (toolName =? "search_by_report_type")%string
  then ["page_num"; "page_size"; "report_type"]
  else if (toolName =? "search_by_city")%string
  then ["page_num"; "page_size"; "city_name"]
  else if (toolName =? "search_reports_by_date_range")%string
  then ["start_date"; "end_date"; "page_num"; "page_size"]
  else if (toolName =? "advanced_content_search")%string
  then ["published_date_from"; "published_date_to"; "page_num"; "page_size";
        "entity_details"]
  else if (toolName =? "get_latest_market_report_by_city")%string
  then ["city_name"]
  else if (toolName =? "get_latest_price_analysis_by_city")%string
  then ["city_name"]
  else [].

(** [apiClient.get(`/api/content/entity_values/${FEED_ID}`, { params })] *)
Definition entity_values_call (FEED_ID : string) (entity_type : value)
  : HttpCallSpec :=
  mkCall GET ("/api/content/entity_values/" ++ FEED_ID)
    (Some (VObj [("entity_type", entity_type)])) None.

(** [apiClient.get(`/api/content/entity_types/${FEED_ID}`)] *)
Definition entity_types_call (FEED_ID : string) : HttpCallSpec :=
  mkCall GET ("/api/content/entity_types/" ++ FEED_ID) None None.

(** The values [console.error] was given, in order. *)
Fixpoint console_errors (log : list event) : list (string * value) :=
  match log with
  | [] => []
  | EvHttp _ :: log' => console_errors log'
  | EvConsoleError label shown :: log' => (label, shown) :: console_errors log'
  end.

(** The payload [list_report_types] serializes. *)
Definition report_types_payload (report_types count : value) : value :=
  VObj [("status", VStr "success");
        ("report_types", report_types);
        ("count", count);
        ("usage_note",
         VStr "Use one of these exact report types with search_by_report_type tool")].

(** A computation that, when it returns, returns a single text item. *)
Definition yields_text (m : M CallToolResult) : Prop :=
  forall r, snd m = inr r -> exists v, r = text_result v.

(** ** Start-up

    The configuration block of the module: [process.env] after
    [dotenv.config()] is a lookup [env]; the process either exits with a
    message on stderr or goes on with the settings of [axios.create]. *)

(** [process.env.NAME || fallback] *)
Definition env_or (v : option string) (fallback : string) : string :=
  match v with
  | Some s => if (s =? "")%string then fallback else s
  | None => fallback
  end.

(** [!process.env.NAME] *)
Definition env_missing (v : option string) : bool :=
  match v with
  | Some s => (s =? "")%string
  | None => true
  end.

Record ClientConfig : Type := mkClient {
  baseURL : string;
  headers : list (string * string)
}.

Inductive Startup : Type :=
  | Exited (code : Z) (stderr : string)
  | Started (API_BASE_URL FEED_ID : string) (client : ClientConfig).

Definition startup (env : string -> option string) : Startup :=
  let API_BASE_URL := env_or (env "API_BASE_URL") "https://feeds.parsym.com" in
  let FEED_ID := env_or (env "FEED_ID") "292" in
  let API_KEY := env "API_KEY" in
  let SECRET_KEY := env "SECRET_KEY" in
  if env_missing API_KEY || env_missing SECRET_KEY then
    Exited 1 "API_KEY and SECRET_KEY must be provided in environment variables"
  else
    Started API_BASE_URL FEED_ID
      (mkClient API_BASE_URL
         [("Content-Type", "application/json");
          ("api-key", env_or API_KEY "");
          ("secret", env_or SECRET_KEY "")]).

(** The integers a double holds exactly and the engine writes in plain
    decimal digits. *)
Definition safe_integer (n : Z) : bool := (- 2 ^ 53 <=? n) && (n <=? 2 ^ 53).

(** Every number in [v] is a safe integer: the values whose numbers and
    whose texts are those of the engine. *)
Fixpoint safe_numbers (v : value) : bool :=
  match v with
  | VNum n => safe_integer n
  | VArr xs => forallb safe_numbers xs
  | VObj ps => forallb (fun kv => safe_numbers (snd kv)) ps
  | _ => true
  end.

(** * Properties *)

(** ** The monad and the [catch] block *)

Lemma silent_ret {A} (a : A) : silent (ret a).
Proof. reflexivity. Qed.

Lemma silent_throw {A} (e : thrown) : silent (@throw A e).
Proof. reflexivity. Qed.

Lemma fst_bind {A B} (m : M A) (k : A -> M B) :
  fst (bind m k)
  = (fst m ++ match snd m with inl _ => [] | inr a => fst (k a) end)%list.
Proof.
  destruct m as [log [e | a]]; simpl.
  - now rewrite app_nil_r.
  - now destruct (k a).
Qed.

Lemma silent_bind {A B} (m : M A) (k : A -> M B) :
  silent m -> (forall a, silent (k a)) -> silent (bind m k).
Proof.
  unfold silent; intros Hm Hk. rewrite fst_bind, Hm; simpl.
  destruct (snd m); auto.
Qed.

Lemma silent_get_prop v k : silent (get_prop v k).
Proof. now destruct v. Qed.

Lemma silent_call_toLowerCase expr v : silent (call_toLowerCase expr v).
Proof. now destruct v. Qed.

Lemma silent_filterM f xs : (forall x, silent (f x)) -> silent (filterM f xs).
Proof.
  intros Hf; induction xs as [| x xs IH]; simpl.
  - apply silent_ret.
  - apply silent_bind; [apply Hf | intros keep].
    apply silent_bind; [exact IH | intros rest; apply silent_ret].
Qed.

Lemma silent_call_filter expr v f :
  (forall x, silent (f x)) -> silent (call_filter expr v f).
Proof.
  intros Hf; destruct v; simpl; try reflexivity. now apply silent_filterM.
Qed.

Create HintDb silent.
#[local] Hint Resolve silent_ret silent_throw silent_get_prop
  silent_call_toLowerCase silent_call_filter : silent.

Ltac silence :=
  cbv beta;
  repeat first
    [ apply silent_bind; [ | intro ]
    | apply silent_call_filter; intro
    | solve [ auto with silent ] ].

Lemma on_error_eq (e : thrown) :
  on_error e
  = ([EvConsoleError "Tool error:" (errorMessage e)],
     inr (text_result
            (error_envelope (errorMessage e)
                            (js_or (error_response_data e) VNull)))).
Proof.
  unfold on_error, errorMessage, remote_message.
  destruct (error_response_data e); reflexivity.
Qed.

Section HandlerFacts.

Variable FEED_ID : string.
Variable apiClient : HttpCallSpec -> HttpOutcome.

#[local] Abbreviation dispatch := (dispatch FEED_ID apiClient).
#[local] Abbreviation callToolHandler := (callToolHandler FEED_ID apiClient).

(** The handler never throws: its [catch] turns every failure into a
    result. *)
Lemma callToolHandler_returns toolName args :
  exists result, snd (callToolHandler toolName args) = inr result.
Proof.
  unfold callToolHandler, try_catch.
  destruct (dispatch toolName args) as [log [e | r]].
  - rewrite on_error_eq; simpl; eauto.
  - simpl; eauto.
Qed.

Lemma callToolHandler_calls toolName args :
  http_calls (fst (callToolHandler toolName args))
  = http_calls (fst (dispatch toolName args)).
Proof.
  unfold callToolHandler, try_catch.
  destruct (dispatch toolName args) as [log [e | r]]; [| reflexivity].
  rewrite on_error_eq; simpl.
  induction log as [| [c | l v] log IH]; simpl; congruence.
Qed.

Lemma dispatch_unknown toolName args :
  ~ In toolName catalog ->
  dispatch toolName args = throw (Error ("Unknown tool: " ++ toolName)).
Proof.
  intros Hnot. unfold dispatch.
  repeat match goal with
  | |- context [(toolName =? ?name)%string] =>
      destruct (String.eqb_spec toolName name) as [-> | _];
      [ exfalso; apply Hnot; simpl; tauto | ]
  end.
  reflexivity.
Qed.

End HandlerFacts.

Section Calls.

Variable FEED_ID : string.
Variable apiClient : HttpCallSpec -> HttpOutcome.

#[local] Abbreviation dispatch := (dispatch FEED_ID apiClient).

Lemma bind_ret {A B} (a : A) (k : A -> M B) : bind (ret a) k = k a.
Proof. unfold bind, ret. now destruct (k a). Qed.

Lemma get_prop_member v k :
  nullish v = false -> get_prop v k = ret (member v k).
Proof. now destruct v. Qed.

(** A call followed by silent steps is the only call of the run. *)
Lemma fst_perform_then {B} c (k : value -> M B) :
  (forall data, silent (k data)) ->
  fst (bind (perform apiClient c) k) = [EvHttp c].
Proof.
  intros Hk. rewrite fst_bind. unfold perform; simpl.
  destruct (apiClient c) as [data | m r]; [| reflexivity].
  now rewrite Hk.
Qed.

Lemma snd_perform_rejected {B} c (k : value -> M B) m r :
  apiClient c = Rejected m r ->
  snd (bind (perform apiClient c) k) = inl (AxiosError m r).
Proof. intros E. unfold perform, bind. now rewrite E. Qed.

Lemma bind_perform_resolved {B} c (k : value -> M B) data :
  apiClient c = Resolved data ->
  bind (perform apiClient c) k = (EvHttp c :: fst (k data), snd (k data)).
Proof.
  intros E. unfold perform, bind. rewrite E. now destruct (k data).
Qed.

End Calls.

(** Takes the branch of the [switch] a literal tool name selects. *)
Ltac switch :=
  unfold dispatch; cbn [String.eqb Ascii.eqb Bool.eqb andb];
  unfold apiClient_post, apiClient_get.

(** C1. A tool name outside the catalog is answered with the error
    envelope whose message is [Unknown tool: ] followed by the name and
    whose details are null, and no call reaches the remote API. *)
Theorem unknown_tool_envelope :
  forall FEED_ID apiClient toolName args,
    ~ In toolName catalog ->
    callToolHandler FEED_ID apiClient toolName args
    = ([EvConsoleError "Tool error:" (VStr ("Unknown tool: " ++ toolName))],
       inr (text_result
              (error_envelope (VStr ("Unknown tool: " ++ toolName)) VNull)))
    /\ http_calls (fst (callToolHandler FEED_ID apiClient toolName args)) = [].
Proof.
  intros FEED_ID apiClient toolName args Hnot.
  assert (E : callToolHandler FEED_ID apiClient toolName args
              = ([EvConsoleError "Tool error:" (VStr ("Unknown tool: " ++ toolName))],
                 inr (text_result
                        (error_envelope (VStr ("Unknown tool: " ++ toolName)) VNull)))).
  { unfold callToolHandler. rewrite dispatch_unknown by assumption.
    unfold throw, try_catch. rewrite on_error_eq. reflexivity. }
  split; [exact E | now rewrite E].
Qed.

Lemma unknown_tool_envelope_witness :
  callToolHandler "292" (fixture (Resolved VNull)) "delete_everything" VUndefined
  = ([EvConsoleError "Tool error:" (VStr "Unknown tool: delete_everything")],
     inr (text_result
            (error_envelope (VStr "Unknown tool: delete_everything") VNull))).
Proof.
  refine (proj1 (unknown_tool_envelope "292" (fixture (Resolved VNull))
                   "delete_everything" VUndefined _)).
  simpl. intros H.
  repeat (destruct H as [H | H]; [discriminate H |]). exact H.
Defined.

(** ** The requests the tools build *)

Lemma latest_market_report_calls FEED_ID apiClient args :
  nullish args = false ->
  http_calls
    (fst (callToolHandler FEED_ID apiClient
            "get_latest_market_report_by_city" args))
  = [feed_call (latest_report_query FEED_ID (member args "city_name"))].
Proof.
  intros Hargs. rewrite callToolHandler_calls. switch.
  rewrite get_prop_member, bind_ret, fst_perform_then
    by (assumption || (intro; silence)).
  reflexivity.
Qed.

Lemma latest_price_analysis_calls FEED_ID apiClient args :
  nullish args = false ->
  http_calls
    (fst (callToolHandler FEED_ID apiClient
            "get_latest_price_analysis_by_city" args))
  = [feed_call (latest_report_query FEED_ID (member args "city_name"))].
Proof.
  intros Hargs. rewrite callToolHandler_calls. switch.
  rewrite get_prop_member, bind_ret, fst_perform_then
    by (assumption || (intro; silence)).
  reflexivity.
Qed.

(** C3. Whatever else the arguments hold, the market-report tool posts to the
    feed endpoint a query for page 0 of size 1 whose entity filters are the
    city filter for [city_name] followed by the fixed Report filter. *)
Theorem latest_market_report_request :
  forall FEED_ID apiClient props city_name,
    own_property "city_name" props = Some city_name ->
    http_calls
      (fst (callToolHandler FEED_ID apiClient
              "get_latest_market_report_by_city" (VObj props)))
    = [ mkCall POST "/api/content/feed" None
          (Some (VObj [("feed_id", parseInt FEED_ID);
                       ("page_num", VNum 0);
                       ("page_size", VNum 1);
                       ("entity_details",
                        VArr [VObj [("entity_type", VStr "city");
                                    ("entity_value", city_name)];
                              VObj [("entity_type", VStr "Report");
                                    ("entity_value",
                                     VStr "Monthly Report: Major Cities")]])])) ].
Proof.
  intros FEED_ID apiClient props city_name Hcity.
  rewrite latest_market_report_calls by reflexivity.
  simpl. now rewrite Hcity.
Qed.

Lemma latest_market_report_request_witness :
  http_calls
    (fst (callToolHandler "292" (fixture (Resolved (VObj [])))
            "get_latest_market_report_by_city"
            (VObj [("city_name", VStr "Miami"); ("page_size", VNum 25)])))
  = [ feed_call (latest_report_query "292" (VStr "Miami")) ].
Proof.
  exact (latest_market_report_request "292" (fixture (Resolved (VObj [])))
           [("city_name", VStr "Miami"); ("page_size", VNum 25)]
           (VStr "Miami") eq_refl).
Defined.

(** C4. For every [city_name] the price-analysis tool builds the very request
    the market-report tool builds: same method, path and body, the Report
    filter [Monthly Report: Major Cities] included. *)
Theorem latest_price_analysis_same_request :
  forall FEED_ID apiClient props city_name,
    own_property "city_name" props = Some city_name ->
    http_calls
      (fst (callToolHandler FEED_ID apiClient
              "get_latest_price_analysis_by_city" (VObj props)))
    = [feed_call (latest_report_query FEED_ID city_name)]
    /\ http_calls
         (fst (callToolHandler FEED_ID apiClient
                 "get_latest_price_analysis_by_city" (VObj props)))
       = http_calls
           (fst (callToolHandler FEED_ID apiClient
                   "get_latest_market_report_by_city" (VObj props))).
Proof.
  intros FEED_ID apiClient props city_name Hcity.
  rewrite latest_price_analysis_calls, latest_market_report_calls by reflexivity.
  simpl. rewrite Hcity. split; reflexivity.
Qed.

Lemma latest_price_analysis_same_request_witness :
  http_calls
    (fst (callToolHandler "292" (fixture (Resolved (VObj [])))
            "get_latest_price_analysis_by_city"
            (VObj [("city_name", VStr "Miami")])))
  = http_calls
      (fst (callToolHandler "292" (fixture (Resolved (VObj [])))
              "get_latest_market_report_by_city"
              (VObj [("city_name", VStr "Miami")]))).
Proof.
  exact (proj2 (latest_price_analysis_same_request "292"
                  (fixture (Resolved (VObj [])))
                  [("city_name", VStr "Miami")] (VStr "Miami") eq_refl)).
Defined.

(** C5. With a [city_name] and neither [page_num] nor [page_size],
    [search_by_city] posts a query for page 0 of size 10 whose only entity
    filter is the city filter for [city_name]. *)
Theorem search_by_city_default_query :
  forall FEED_ID apiClient props city_name,
    own_property "city_name" props = Some city_name ->
    own_property "page_num" props = None ->
    own_property "page_size" props = None ->
    http_calls
      (fst (callToolHandler FEED_ID apiClient "search_by_city" (VObj props)))
    = [feed_call
         (VObj [("feed_id", parseInt FEED_ID);
                ("page_num", VNum 0);
                ("page_size", VNum 10);
                ("entity_details",
                 VArr [VObj [("entity_type", VStr "city");
                             ("entity_value", city_name)]])])].
Proof.
  intros FEED_ID apiClient props city_name Hcity Hnum Hsize.
  rewrite callToolHandler_calls. switch.
  rewrite !get_prop_member, !bind_ret, fst_perform_then
    by (reflexivity || (intro; silence)).
  simpl. now rewrite Hcity, Hnum, Hsize.
Qed.

Lemma search_by_city_default_query_witness :
  http_calls
    (fst (callToolHandler "292" (fixture (Resolved (VObj [])))
            "search_by_city" (VObj [("city_name", VStr "Austin")])))
  = [feed_call
       (VObj [("feed_id", VNum 292);
              ("page_num", VNum 0);
              ("page_size", VNum 10);
              ("entity_details",
               VArr [VObj [("entity_type", VStr "city");
                           ("entity_value", VStr "Austin")]])])].
Proof.
  exact (search_by_city_default_query "292" (fixture (Resolved (VObj [])))
           [("city_name", VStr "Austin")] (VStr "Austin")
           eq_refl eq_refl eq_refl).
Defined.

(** C6. [advanced_content_search] copies the caller's
    [published_date_from], [published_date_to], [page_num], [page_size] and
    [entity_details] into the posted query as they are (undefined when not
    supplied), with no default.  Called with page 2 of size 5 and no
    [entity_details], the query carries that pagination, its
    [entity_details] is undefined, and its serialization has no such
    property. *)
Theorem advanced_search_verbatim :
  forall FEED_ID apiClient props,
    http_calls
      (fst (callToolHandler FEED_ID apiClient
              "advanced_content_search" (VObj props)))
    = [feed_call
         (VObj [("feed_id", parseInt FEED_ID);
                ("published_date_from", member (VObj props) "published_date_from");
                ("published_date_to", member (VObj props) "published_date_to");
                ("page_num", member (VObj props) "page_num");
                ("page_size", member (VObj props) "page_size");
                ("entity_details", member (VObj props) "entity_details")])]
    /\ http_calls
         (fst (callToolHandler FEED_ID apiClient "advanced_content_search"
                 (VObj [("page_num", VNum 2); ("page_size", VNum 5)])))
       = [feed_call
            (VObj [("feed_id", parseInt FEED_ID);
                   ("published_date_from", VUndefined);
                   ("published_date_to", VUndefined);
                   ("page_num", VNum 2);
                   ("page_size", VNum 5);
                   ("entity_details", VUndefined)])]
    /\ JSON_stringify
         (VObj [("feed_id", VNum 292);
                ("published_date_from", VUndefined);
                ("published_date_to", VUndefined);
                ("page_num", VNum 2);
                ("page_size", VNum 5);
                ("entity_details", VUndefined)])
       = JSON_stringify
           (VObj [("feed_id", VNum 292);
                  ("page_num", VNum 2);
                  ("page_size", VNum 5)]).
Proof.
  intros FEED_ID apiClient props.
  assert (Hgen : forall ps,
    http_calls
      (fst (callToolHandler FEED_ID apiClient
              "advanced_content_search" (VObj ps)))
    = [feed_call
         (VObj [("feed_id", parseInt FEED_ID);
                ("published_date_from", member (VObj ps) "published_date_from");
                ("published_date_to", member (VObj ps) "published_date_to");
                ("page_num", member (VObj ps) "page_num");
                ("page_size", member (VObj ps) "page_size");
                ("entity_details", member (VObj ps) "entity_details")])]).
  { intros ps. rewrite callToolHandler_calls. switch.
    rewrite !get_prop_member, !bind_ret, fst_perform_then
      by (reflexivity || (intro; silence)).
    reflexivity. }
  split; [apply Hgen | split; [rewrite Hgen; reflexivity | reflexivity]].
Qed.

(** C10. In [search_by_report_type], [search_by_city] and
    [search_reports_by_date_range] the pagination defaults replace every
    falsy argument, absent or not: the posted [page_size] is the argument
    when it is truthy and 10 otherwise, so a supplied 0 becomes 10; the
    posted [page_num] is the argument when truthy and 0 otherwise, and a run
    with [page_num] 0 supplied equals the run without it. *)
Theorem pagination_defaults_on_falsy :
  forall FEED_ID apiClient toolName props,
    In toolName defaulting_tools ->
    (exists body,
       http_calls
         (fst (callToolHandler FEED_ID apiClient toolName (VObj props)))
       = [feed_call body]
       /\ member body "page_size"
          = (if truthy (member (VObj props) "page_size")
             then member (VObj props) "page_size" else VNum 10)
       /\ member body "page_num"
          = (if truthy (member (VObj props) "page_num")
             then member (VObj props) "page_num" else VNum 0)
       /\ (own_property "page_size" props = Some (VNum 0) ->
           member body "page_size" = VNum 10))
    /\ (own_property "page_num" props = None ->
        callToolHandler FEED_ID apiClient toolName
          (VObj (("page_num", VNum 0) :: props))
        = callToolHandler FEED_ID apiClient toolName (VObj props)).
Proof.
  intros FEED_ID apiClient toolName props Hin.
  destruct Hin as [<- | [<- | [<- | []]]].
  all: split;
    [ eexists; rewrite callToolHandler_calls; switch;
      rewrite !get_prop_member, !bind_ret, fst_perform_then
        by (reflexivity || (intro; silence));
      split; [reflexivity |];
      cbn [member own_property String.eqb Ascii.eqb Bool.eqb andb];
      unfold js_or;
      split; [reflexivity | split; [reflexivity |]];
      intros ->; reflexivity
    | intros Hnone; unfold callToolHandler; f_equal; switch;
      rewrite !get_prop_member, !bind_ret by reflexivity;
      cbn [member own_property String.eqb Ascii.eqb Bool.eqb andb];
      rewrite Hnone; reflexivity ].
Qed.

Lemma pagination_defaults_on_falsy_witness :
  exists body,
    http_calls
      (fst (callToolHandler "292" (fixture (Resolved (VObj [])))
              "search_by_city"
              (VObj [("city_name", VStr "Austin"); ("page_size", VNum 0)])))
    = [feed_call body]
    /\ member body "page_size" = VNum 10.
Proof.
  destruct (pagination_defaults_on_falsy "292" (fixture (Resolved (VObj [])))
              "search_by_city"
              [("city_name", VStr "Austin"); ("page_size", VNum 0)]
              (or_intror (or_introl eq_refl))) as [[body [Hcalls [_ [_ Hzero]]]] _].
  exists body. split; [exact Hcalls | exact (Hzero eq_refl)].
Defined.

(** ** Every tool at once *)

Section Shape.

Variable FEED_ID : string.
Variable apiClient : HttpCallSpec -> HttpOutcome.

#[local] Abbreviation dispatch := (dispatch FEED_ID apiClient).

(** The [try] block either throws before calling the remote API, a value
    with no [response], or is one call followed by steps that call nothing. *)
Lemma dispatch_shape toolName args :
  (exists e, dispatch toolName args = throw e /\ error_response_data e = VUndefined)
  \/ (exists c (k : value -> M CallToolResult),
        dispatch toolName args = bind (perform apiClient c) k
        /\ forall data, silent (k data)).
Proof.
  destruct (in_dec string_dec toolName catalog) as [Hin | Hnot].
  - simpl in Hin.
    repeat (destruct Hin as [<- | Hin]); try contradiction; switch.
    all: try solve [right; do 2 eexists; split; [reflexivity | intro; silence]].
    all: destruct args;
      try solve [left; eexists; split; reflexivity];
      rewrite !get_prop_member, !bind_ret by reflexivity;
      right; do 2 eexists; (split; [reflexivity | intro; silence]).
  - left. rewrite dispatch_unknown by assumption. eexists; split; reflexivity.
Qed.

Lemma callToolHandler_shape toolName args c :
  In c (http_calls (fst (callToolHandler FEED_ID apiClient toolName args))) ->
  exists k : value -> M CallToolResult,
    dispatch toolName args = bind (perform apiClient c) k
    /\ forall data, silent (k data).
Proof.
  rewrite callToolHandler_calls.
  destruct (dispatch_shape toolName args) as [[e [-> _]] | [c' [k [E Hk]]]].
  - intros [].
  - rewrite E, fst_perform_then by assumption.
    intros [<- | []]. now exists k.
Qed.

(** What the [catch] block answers when the call of the run is rejected. *)
Lemma rejected_call_result toolName args c message response :
  In c (http_calls (fst (callToolHandler FEED_ID apiClient toolName args))) ->
  apiClient c = Rejected message response ->
  snd (callToolHandler FEED_ID apiClient toolName args)
  = inr (text_result
           (error_envelope
              (errorMessage (AxiosError message response))
              (js_or (error_response_data (AxiosError message response)) VNull))).
Proof.
  intros Hc Hrej. destruct (callToolHandler_shape _ _ _ Hc) as [k [E _]].
  unfold callToolHandler, try_catch.
  pose proof (snd_perform_rejected apiClient c k message response Hrej) as Hsnd.
  rewrite <- E in Hsnd.
  destruct (dispatch toolName args) as [log [e | r]]; simpl in Hsnd;
    [| discriminate].
  injection Hsnd as ->. now rewrite on_error_eq.
Qed.

End Shape.

(** C7, as stated, fails: a remote 500 whose body is an object with an empty
    [message] is answered with the transport-level message. *)
Lemma remote_failure_empty_message_counterexample :
  ~ (forall FEED_ID apiClient toolName args c message props m,
       In c (http_calls (fst (callToolHandler FEED_ID apiClient toolName args))) ->
       apiClient c = Rejected message (Some (VObj props)) ->
       own_property "message" props = Some m ->
       snd (callToolHandler FEED_ID apiClient toolName args)
       = inr (text_result (error_envelope m (VObj props)))).
Proof.
  intros claim.
  specialize (claim "292"
    (fixture (Rejected "Request failed with status code 500"
                (Some (VObj [("message", VStr "")]))))
    "search_by_city" (VObj [("city_name", VStr "Austin")])
    (feed_call
       (VObj [("feed_id", VNum 292); ("page_num", VNum 0);
              ("page_size", VNum 10);
              ("entity_details",
               VArr [VObj [("entity_type", VStr "city");
                           ("entity_value", VStr "Austin")]])]))
    "Request failed with status code 500" [("message", VStr "")] (VStr "")
    (or_introl eq_refl) eq_refl eq_refl).
  vm_compute in claim. discriminate claim.
Qed.

(** C7 (amended). When the call of a run is rejected with a response body
    that is an object with a truthy [message], the answer is the error
    envelope carrying that message and the body as details; when the
    rejection has no response, or a response whose body is falsy, and its
    transport-level message is not empty, the envelope carries that message
    and null details.  A remote 500 with body
    [{message: server error}] yields the envelope with message
    [server error] and that body as details. *)
Theorem remote_failure_envelope :
  forall FEED_ID apiClient toolName args c message response,
    In c (http_calls (fst (callToolHandler FEED_ID apiClient toolName args))) ->
    apiClient c = Rejected message response ->
    (forall props m,
        response = Some (VObj props) ->
        own_property "message" props = Some m ->
        truthy m = true ->
        snd (callToolHandler FEED_ID apiClient toolName args)
        = inr (text_result (error_envelope m (VObj props))))
    /\ (response = None ->
        message <> "" ->
        snd (callToolHandler FEED_ID apiClient toolName args)
        = inr (text_result (error_envelope (VStr message) VNull)))
    /\ (forall body,
        response = Some body ->
        truthy body = false ->
        message <> "" ->
        snd (callToolHandler FEED_ID apiClient toolName args)
        = inr (text_result (error_envelope (VStr message) VNull)))
    /\ (response = Some (VObj [("message", VStr "server error")]) ->
        snd (callToolHandler FEED_ID apiClient toolName args)
        = inr (text_result
                 (error_envelope (VStr "server error")
                    (VObj [("message", VStr "server error")])))).
Proof.
  intros FEED_ID apiClient toolName args c message response Hc Hrej.
  rewrite (rejected_call_result _ _ _ _ _ _ _ Hc Hrej).
  repeat split.
  - intros props m -> Hm Htruthy.
    unfold errorMessage, remote_message; simpl. rewrite Hm.
    unfold js_or at 2. rewrite Htruthy.
    unfold js_or. now rewrite Htruthy.
  - intros -> Hmsg.
    unfold errorMessage, remote_message, js_or; simpl.
    destruct (String.eqb_spec message ""); [contradiction | reflexivity].
  - intros body -> Hfalsy Hmsg.
    unfold errorMessage, remote_message, js_or.
    cbn [error_response_data error_message]. rewrite Hfalsy.
    destruct body; try discriminate Hfalsy; simpl;
      destruct (String.eqb_spec message ""); (contradiction || reflexivity).
  - intros ->. reflexivity.
Qed.

Lemma remote_failure_envelope_witness :
  snd (callToolHandler "292"
         (fixture (Rejected "Request failed with status code 500"
                     (Some (VObj [("message", VStr "server error")]))))
         "search_by_city" (VObj [("city_name", VStr "Austin")]))
  = inr (text_result
           (error_envelope (VStr "server error")
              (VObj [("message", VStr "server error")]))).
Proof.
  refine (proj2 (proj2 (proj2 (remote_failure_envelope "292"
    (fixture (Rejected "Request failed with status code 500"
                (Some (VObj [("message", VStr "server error")]))))
    "search_by_city" (VObj [("city_name", VStr "Austin")])
    (feed_call
       (VObj [("feed_id", VNum 292); ("page_num", VNum 0);
              ("page_size", VNum 10);
              ("entity_details",
               VArr [VObj [("entity_type", VStr "city");
                           ("entity_value", VStr "Austin")]])]))
    "Request failed with status code 500"
    (Some (VObj [("message", VStr "server error")])) _ _))) eq_refl).
  - left; reflexivity.
  - reflexivity.
Defined.

(** C9, as stated, fails: [advanced_content_search] called with a
    [page_size] of 100 posts a query whose [page_size] is 100. *)
Lemma page_size_not_clamped_counterexample :
  ~ (forall FEED_ID apiClient toolName args c body,
       In c (http_calls (fst (callToolHandler FEED_ID apiClient toolName args))) ->
       call_body c = Some body ->
       page_size_in_range body).
Proof.
  intros claim.
  destruct (claim "292" (fixture (Resolved (VObj [])))
    "advanced_content_search"
    (VObj [("page_num", VNum 0); ("page_size", VNum 100)])
    (feed_call
       (VObj [("feed_id", VNum 292);
              ("published_date_from", VUndefined);
              ("published_date_to", VUndefined);
              ("page_num", VNum 0);
              ("page_size", VNum 100);
              ("entity_details", VUndefined)]))
    _ (or_introl eq_refl) eq_refl) as [n [Hn Hrange]].
  simpl in Hn. injection Hn as <-. lia.
Qed.

(** C9 (amended). The [page_size] of every posted query is 1 for the two
    latest-report tools, the caller's [page_size] or 10 when that is falsy
    for the three defaulting tools, and the caller's [page_size] as it is
    for [advanced_content_search]; nothing clamps or rejects it.  So it lies
    in 1-50 whenever the caller's [page_size] is an integer of that range. *)
Theorem page_size_passed_through :
  forall FEED_ID apiClient toolName args c body,
    In c (http_calls (fst (callToolHandler FEED_ID apiClient toolName args))) ->
    call_body c = Some body ->
    (In toolName latest_tools /\ member body "page_size" = VNum 1
     \/ In toolName defaulting_tools
        /\ member body "page_size" = js_or (member args "page_size") (VNum 10)
     \/ toolName = "advanced_content_search"
        /\ member body "page_size" = member args "page_size")
    /\ (forall n, member args "page_size" = VNum n -> 1 <= n <= 50 ->
        page_size_in_range body).
Proof.
  intros FEED_ID apiClient toolName args c body Hc Hbody.
  assert (Hrule :
    In toolName latest_tools /\ body = VObj (match body with VObj ps => ps | _ => [] end)
      /\ member body "page_size" = VNum 1
    \/ In toolName defaulting_tools
       /\ body = VObj (match body with VObj ps => ps | _ => [] end)
       /\ member body "page_size" = js_or (member args "page_size") (VNum 10)
    \/ toolName = "advanced_content_search"
       /\ body = VObj (match body with VObj ps => ps | _ => [] end)
       /\ member body "page_size" = member args "page_size").
  { rewrite callToolHandler_calls in Hc.
    destruct (in_dec string_dec toolName catalog) as [Hin | Hnot];
      [| rewrite dispatch_unknown in Hc by assumption; destruct Hc].
    simpl in Hin.
    repeat (destruct Hin as [<- | Hin]); try contradiction;
      revert Hc; switch.
    all: try (rewrite fst_perform_then by (intro; silence);
              intros [<- | []]; discriminate Hbody).
    all: destruct args; try (intros []);
      rewrite !get_prop_member, !bind_ret, fst_perform_then
        by (reflexivity || (intro; silence));
      intros [<- | []]; simpl in Hbody;
      first [ discriminate Hbody
            | injection Hbody as <-;
              unfold latest_tools, defaulting_tools; simpl; tauto ]. }
  split.
  - tauto.
  - intros n Hn Hrange. unfold page_size_in_range.
    destruct Hrule as [[_ [Eb E]] | [[_ [Eb E]] | [_ [Eb E]]]];
      rewrite Eb in E; simpl in E; rewrite ?Hn in E.
    + exists 1. destruct (own_property _ _); [subst; split; [reflexivity | lia] | discriminate].
    + exists n. unfold js_or in E; simpl in E.
      destruct (Z.eqb_spec n 0); [lia |]. simpl in E.
      destruct (own_property _ _); [subst; split; [reflexivity | lia] | discriminate].
    + exists n.
      destruct (own_property _ _); [subst; split; [reflexivity | lia] | discriminate].
Qed.

Lemma page_size_passed_through_witness :
  page_size_in_range
    (VObj [("feed_id", VNum 292); ("page_num", VNum 0); ("page_size", VNum 25);
           ("entity_details",
            VArr [VObj [("entity_type", VStr "Report");
                        ("entity_value", VStr "Market Report")]])]).
Proof.
  refine (proj2 (page_size_passed_through "292" (fixture (Resolved (VObj [])))
    "search_by_report_type"
    (VObj [("report_type", VStr "Market Report"); ("page_size", VNum 25)])
    (feed_call _) _ _ eq_refl) 25 eq_refl _).
  - left; reflexivity.
  - lia.
Defined.

(** ** City lookup *)

Lemma startsWith_spec s p :
  startsWith s p = true <-> exists post, s = p ++ post.
Proof.
  revert s; induction p as [| a p IH]; intros s; simpl.
  - split; [intros _; now exists s | reflexivity].
  - destruct s as [| b s]; simpl.
    + split; [discriminate | intros [post E]; discriminate].
    + rewrite andb_true_iff, IH. split.
      * intros [Hab [post ->]]. apply Ascii.eqb_eq in Hab as ->. now exists post.
      * intros [post E]. injection E as -> ->.
        split; [apply Ascii.eqb_refl | now exists post].
Qed.

(** [includes] is substring containment. *)
Lemma includes_spec s sub :
  includes s sub = true <-> exists pre post, s = pre ++ sub ++ post.
Proof.
  induction s as [| c s IH]; simpl; rewrite orb_true_iff.
  - split.
    + intros [H | H]; [| discriminate].
      apply startsWith_spec in H as [post E]. now exists "", post.
    + intros [pre [post E]]. left. apply startsWith_spec.
      destruct pre; [now exists post | discriminate].
  - rewrite IH, startsWith_spec. split.
    + intros [[post E] | [pre [post E]]].
      * now exists "", post.
      * exists (String c pre), post. simpl. now rewrite E.
    + intros [[| a pre] [post E]].
      * left. now exists post.
      * right. injection E as -> E. now exists pre, post.
Qed.

Lemma filterM_cities (partialNameLower : string) (cities : list string) :
  filterM
    (fun city =>
       lowered <- call_toLowerCase "city" city ;;
       ret (includes lowered partialNameLower))
    (map VStr cities)
  = ret (map VStr
           (filter (fun city => includes (toLowerCase city) partialNameLower)
                   cities)).
Proof.
  induction cities as [| city cities IH]; simpl; [reflexivity |].
  rewrite IH. cbn [call_toLowerCase].
  rewrite !bind_ret.
  now destruct (includes (toLowerCase city) partialNameLower).
Qed.

(** C2. Given a string [partial_name] and a remote list of city strings,
    [lookup_cities] answers with status success, the cities whose lowercased
    form contains the lowercased [partial_name] as a substring, in the
    order of the remote list, their number as count, and the usage note. *)
Theorem lookup_cities_filters :
  forall FEED_ID apiClient props partial_name data cities,
    own_property "partial_name" props = Some (VStr partial_name) ->
    apiClient (city_values_call FEED_ID) = Resolved data ->
    member data "unique_entity_value" = VArr (map VStr cities) ->
    let matchedCities :=
      filter (fun city =>
                includes (toLowerCase city) (toLowerCase partial_name))
             cities in
    callToolHandler FEED_ID apiClient "lookup_cities" (VObj props)
    = ([EvHttp (city_values_call FEED_ID)],
       inr (text_result (lookup_payload matchedCities)))
    /\ forall city,
         In city matchedCities
         <-> In city cities
             /\ exists pre post,
                  toLowerCase city = pre ++ toLowerCase partial_name ++ post.
Proof.
  intros FEED_ID apiClient props partial_name data cities Hname Hcall Hlist
         matchedCities.
  split.
  - unfold callToolHandler. switch.
    fold (city_values_call FEED_ID).
    rewrite (bind_perform_resolved apiClient _ _ data Hcall).
    assert (Hdata : nullish data = false)
      by (destruct data; try reflexivity; discriminate Hlist).
    rewrite !get_prop_member, !bind_ret by (reflexivity || assumption).
    cbn [member]. rewrite Hname, Hlist.
    cbn [call_toLowerCase]. rewrite !bind_ret.
    cbn [call_filter]. rewrite filterM_cities, bind_ret.
    unfold lookup_payload, matchedCities, usage_note_cities.
    rewrite !length_map. reflexivity.
  - intros city. unfold matchedCities.
    now rewrite filter_In, includes_spec.
Qed.

Lemma lookup_cities_filters_witness :
  callToolHandler "292"
    (fixture (Resolved (VObj [("unique_entity_value",
                               VArr [VStr "New York"; VStr "Newark";
                                     VStr "Boston"])])))
    "lookup_cities" (VObj [("partial_name", VStr "new")])
  = ([EvHttp (city_values_call "292")],
     inr (text_result
            (VObj [("status", VStr "success");
                   ("matched_cities", VArr [VStr "New York"; VStr "Newark"]);
                   ("count", VNum 2);
                   ("usage_note",
                    VStr "Use one of these exact city names with the search_by_city tool")]))).
Proof.
  exact (proj1 (lookup_cities_filters "292"
    (fixture (Resolved (VObj [("unique_entity_value",
                               VArr [VStr "New York"; VStr "Newark";
                                     VStr "Boston"])])))
    [("partial_name", VStr "new")] "new"
    (VObj [("unique_entity_value",
            VArr [VStr "New York"; VStr "Newark"; VStr "Boston"])])
    ["New York"; "Newark"; "Boston"] eq_refl eq_refl eq_refl)).
Defined.


(** ** Reading back what [JSON.stringify] wrote *)

Lemma append_assoc (a b c : string) : (a ++ b) ++ c = a ++ (b ++ c).
Proof. induction a as [| x a IH]; simpl; [reflexivity | now rewrite IH]. Qed.

Lemma append_empty_r (a : string) : a ++ "" = a.
Proof. induction a as [| x a IH]; simpl; [reflexivity | now rewrite IH]. Qed.

Lemma length_append (a b : string) :
  String.length (a ++ b) = (String.length a + String.length b)%nat.
Proof. induction a as [| x a IH]; simpl; [reflexivity | now rewrite IH]. Qed.

Lemma blank_empty : blank "".
Proof. intros s; reflexivity. Qed.

Lemma blank_append (w w' : string) : blank w -> blank w' -> blank (w ++ w').
Proof. intros Hw Hw' s. now rewrite append_assoc, Hw, Hw'. Qed.

Lemma blank_gap : blank gap.
Proof. intros s; reflexivity. Qed.

Lemma blank_newline : blank newline.
Proof. intros s; reflexivity. Qed.

Lemma blank_space : blank " ".
Proof. intros s; reflexivity. Qed.

Create HintDb blank.
#[local] Hint Resolve blank_empty blank_append blank_gap blank_newline
  blank_space : blank.

Lemma next_is_blank (c : ascii) (w s : string) :
  blank w -> next_is c (w ++ s) = next_is c s.
Proof. intros Hw. unfold next_is. now rewrite Hw. Qed.

Lemma starts_value_skip (s : string) :
  starts_value s = true -> skip_ws s = s.
Proof.
  destruct s as [| c s]; simpl; [reflexivity |].
  now destruct (is_ws c).
Qed.

Lemma starts_value_not_closing (s : string) :
  starts_value s = true -> next_is "]" s = None /\ next_is "}" s = None.
Proof.
  intros H. unfold next_is. rewrite (starts_value_skip s H).
  destruct s as [| c s]; [discriminate |].
  unfold starts_value in H. cbv beta iota.
  apply negb_true_iff in H.
  apply orb_false_iff in H as [H Hbrace]. apply orb_false_iff in H as [_ Hbracket].
  rewrite (Ascii.eqb_sym "]"), (Ascii.eqb_sym "}"), Hbracket, Hbrace. now split.
Qed.

Lemma parse_value_blank (fuel : nat) (w s : string) :
  blank w -> parse_value fuel (w ++ s) = parse_value fuel s.
Proof. intros Hw. destruct fuel; simpl; [reflexivity | now rewrite Hw]. Qed.

(** *** Strings *)

Lemma parse_escape_unit (c : ascii) (tail : string) :
  parse_string_body (escape_unit c ++ tail)
  = match parse_string_body tail with
    | Some (str, r) => Some (String c str, r)
    | None => None
    end.
Proof.
  destruct c as [[] [] [] [] [] [] [] []]; reflexivity.
Qed.

Lemma parse_string_body_escape (s rest : string) :
  parse_string_body (escape s ++ dquote ++ rest) = Some (s, rest).
Proof.
  induction s as [| c s IH]; [reflexivity |].
  cbn [escape]. now rewrite append_assoc, parse_escape_unit, IH.
Qed.

(** *** Numbers *)

Lemma parse_digits_stop (rest : string) :
  number_stops rest = true -> parse_digits rest = (Decimal.Nil, rest).
Proof.
  destruct rest as [| c rest]; simpl; [reflexivity |].
  now destruct (digit c).
Qed.

Lemma parse_digits_uint (d : Decimal.uint) (rest : string) :
  number_stops rest = true ->
  parse_digits (DecimalString.NilEmpty.string_of_uint d ++ rest) = (d, rest).
Proof.
  intros Hrest. induction d; simpl; rewrite ?IHd; try reflexivity.
  now apply parse_digits_stop.
Qed.

Lemma unorm_no_leading_zero (d d' : Decimal.uint) :
  Decimal.unorm d = Decimal.D0 d' -> d' = Decimal.Nil.
Proof.
  induction d; simpl; intros H; try discriminate; auto.
  now injection H.
Qed.

Lemma nzhead_no_leading_zero (d d' : Decimal.uint) :
  Decimal.nzhead d <> Decimal.D0 d'.
Proof. induction d; simpl; auto; discriminate. Qed.

Lemma to_int_norm (n : Z) : Decimal.norm (Z.to_int n) = Z.to_int n.
Proof. now rewrite <- DecimalZ.to_of, DecimalZ.of_to. Qed.

Lemma parse_number_NumberToString (n : Z) (rest : string) :
  number_stops rest = true ->
  parse_number (NumberToString n ++ rest) = Some (VNum n, rest).
Proof.
  intros Hrest. unfold NumberToString.
  pose proof (DecimalZ.of_to n) as Hof. pose proof (to_int_norm n) as Hnorm.
  destruct (Z.to_int n) as [d | d]; simpl in Hnorm.
  - injection Hnorm as Hnorm.
    destruct d; try discriminate Hnorm;
      try (unfold parse_number; simpl;
           rewrite parse_digits_uint by assumption;
           rewrite Hrest; repeat f_equal; exact Hof).
    apply unorm_no_leading_zero in Hnorm as ->.
    unfold parse_number; simpl.
    rewrite parse_digits_stop by assumption. rewrite Hrest.
    simpl in Hof. now subst n.
  - destruct (Decimal.nzhead d) eqn:Hhead; try discriminate Hnorm;
      injection Hnorm as Hnorm; subst d;
      try (unfold parse_number; simpl;
           rewrite parse_digits_uint by assumption;
           rewrite Hrest; repeat f_equal; exact Hof).
    now apply nzhead_no_leading_zero in Hhead.
Qed.

Lemma starts_value_NumberToString (n : Z) (rest : string) :
  starts_value (NumberToString n ++ rest) = true.
Proof.
  unfold NumberToString. destruct (Z.to_int n) as [d | d]; [| reflexivity].
  destruct d; reflexivity.
Qed.

Lemma NumberToString_nonempty (n : Z) :
  (1 <= String.length (NumberToString n))%nat.
Proof.
  unfold NumberToString. destruct (Z.to_int n) as [d | d]; simpl; [| lia].
  destruct d; simpl; lia.
Qed.

(** *** Objects without a repeated key *)

Lemma distinct_NoDup (ks : list string) : distinct ks = true <-> NoDup ks.
Proof.
  induction ks as [| k ks IH]; simpl.
  - split; [constructor | reflexivity].
  - rewrite andb_true_iff, negb_true_iff, IH. split.
    + intros [Hk Hks]. constructor; [| assumption].
      intros Hin. apply not_true_iff_false in Hk. apply Hk.
      apply existsb_exists. exists k. split; [assumption | apply String.eqb_refl].
    + intros Hnd. inversion Hnd as [| ? ? Hk Hks]; subst. split; [| assumption].
      apply not_true_iff_false. intros Hex.
      apply existsb_exists in Hex as [k' [Hin Heq]].
      apply String.eqb_eq in Heq as <-. contradiction.
Qed.

Lemma define_property_fresh k v ps :
  ~ In k (map fst ps) -> define_property k v ps = (ps ++ [(k, v)])%list.
Proof.
  induction ps as [| [k' v'] ps IH]; simpl; intros Hk; [reflexivity |].
  destruct (String.eqb_spec k k') as [-> | _]; [tauto |].
  rewrite IH; tauto.
Qed.

Lemma object_of_distinct (ms : list (string * value)) :
  distinct (map fst ms) = true -> object_of ms = ms.
Proof.
  intros Hd. apply distinct_NoDup in Hd. unfold object_of.
  change ms with ([] ++ ms)%list at 2. revert Hd.
  change (map fst ms) with (map fst ([] ++ ms)%list).
  generalize (@nil (string * value)) as acc.
  induction ms as [| [k v] ms IH]; intros acc Hnd; simpl.
  - now rewrite app_nil_r.
  - rewrite define_property_fresh.
    + rewrite IH; rewrite <- app_assoc; [reflexivity | exact Hnd].
    + rewrite map_app in Hnd. simpl in Hnd.
      apply NoDup_remove_2 in Hnd. intros Hin. apply Hnd.
      apply in_or_app. now left.
Qed.

(** *** Arrays and objects *)

Lemma parse_elements_S (f : nat) (s : string) :
  parse_elements (S f) s
  = match parse_value f s with
    | None => None
    | Some (v, rest) =>
        match next_is "," rest with
        | Some r =>
            match parse_elements f r with
            | Some (vs, r') => Some (v :: vs, r')
            | None => None
            end
        | None =>
            match next_is "]" rest with
            | Some r => Some ([v], r)
            | None => None
            end
        end
    end.
Proof. reflexivity. Qed.

Lemma parse_members_S (f : nat) (s : string) :
  parse_members (S f) s
  = match next_is (ascii_of_nat 34) s with
    | None => None
    | Some rest =>
        match parse_string_body rest with
        | None => None
        | Some (k, rest1) =>
            match next_is ":" rest1 with
            | None => None
            | Some rest2 =>
                match parse_value f rest2 with
                | None => None
                | Some (v, rest3) =>
                    match next_is "," rest3 with
                    | Some r =>
                        match parse_members f r with
                        | Some (ms, r') => Some ((k, v) :: ms, r')
                        | None => None
                        end
                    | None =>
                        match next_is "}" rest3 with
                        | Some r => Some ([(k, v)], r)
                        | None => None
                        end
                    end
                end
            end
        end
    end.
Proof. reflexivity. Qed.

Lemma parse_value_string (f : nat) (tail : string) :
  parse_value (S f) (String (ascii_of_nat 34) tail)
  = match parse_string_body tail with
    | Some (str, r) => Some (VStr str, r)
    | None => None
    end.
Proof. reflexivity. Qed.

Lemma parse_value_array (f : nat) (tail : string) :
  parse_value (S f) ("[" ++ tail)
  = match next_is "]" tail with
    | Some r => Some (VArr [], r)
    | None =>
        match parse_elements f tail with
        | Some (xs, r) => Some (VArr xs, r)
        | None => None
        end
    end.
Proof. reflexivity. Qed.

Lemma parse_value_object (f : nat) (tail : string) :
  parse_value (S f) ("{" ++ tail)
  = match next_is "}" tail with
    | Some r => Some (VObj [], r)
    | None =>
        match parse_members f tail with
        | Some (ms, r) => Some (VObj (object_of ms), r)
        | None => None
        end
    end.
Proof. reflexivity. Qed.

Lemma parse_value_number (f : nat) (n : Z) (rest : string) :
  parse_value (S f) (NumberToString n ++ rest)
  = parse_number (NumberToString n ++ rest).
Proof.
  unfold NumberToString. destruct (Z.to_int n) as [d | d]; [| reflexivity].
  destruct d; reflexivity.
Qed.

Lemma quoted_shape (k rest : string) :
  QuoteJSONString k ++ rest
  = String (ascii_of_nat 34) (escape k ++ dquote ++ rest).
Proof. unfold QuoteJSONString. simpl. now rewrite append_assoc. Qed.

Lemma wrap_partial_nonempty opening closing indent p ps rest :
  wrap_partial opening closing indent (p :: ps) ++ rest
  = opening ++ (newline ++ (indent ++ gap))
      ++ String.concat ("," ++ newline ++ (indent ++ gap)) (p :: ps)
      ++ (newline ++ indent) ++ closing ++ rest.
Proof.
  unfold wrap_partial.
  generalize (String.concat ("," ++ newline ++ indent ++ gap) (p :: ps)) as C.
  generalize (indent ++ gap) as i'. intros i' C.
  now rewrite !append_assoc.
Qed.

Lemma concat_need_bound {A} (f : A -> nat) (g : A -> string) sep (l : list A) :
  (1 <= String.length sep)%nat ->
  Forall (fun a => (f a <= String.length (g a))%nat) l ->
  (fold_right (fun a acc => S (f a + acc)) O l
   <= S (String.length (String.concat sep (map g l))))%nat.
Proof.
  intros Hsep. induction 1 as [| a l Ha Hl IH]; [simpl; lia |].
  destruct l as [| b l].
  - simpl. lia.
  - change (String.concat sep (map g (a :: b :: l)))
      with (g a ++ sep ++ String.concat sep (map g (b :: l))).
    rewrite !length_append.
    change (fold_right (fun a acc => S (f a + acc)) O (a :: b :: l))
      with (S (f a + fold_right (fun a acc => S (f a + acc)) O (b :: l))).
    lia.
Qed.

Lemma wrap_partial_length opening closing indent partial :
  (String.length opening + String.length closing
   <= String.length (wrap_partial opening closing indent partial))%nat
  /\ (partial <> [] ->
      String.length opening + String.length closing + 2
      + String.length (String.concat ("," ++ newline ++ indent ++ gap) partial)
      <= String.length (wrap_partial opening closing indent partial))%nat.
Proof.
  unfold wrap_partial. destruct partial as [| p ps].
  - rewrite length_append. split; [lia | congruence].
  - generalize (String.concat ("," ++ newline ++ indent ++ gap) (p :: ps)) as C.
    intros C. rewrite !length_append.
    change (String.length newline) with 1%nat. split; intros; lia.
Qed.

Lemma next_is_hit (c : ascii) (rest : string) :
  is_ws c = false -> next_is c (String c rest) = Some rest.
Proof.
  intros Hc. unfold next_is. simpl. now rewrite Hc, Ascii.eqb_refl.
Qed.

Lemma next_is_comma (rest : string) : next_is "," ("," ++ rest) = Some rest.
Proof. reflexivity. Qed.

(** The elements of a non-empty array are read back from their lines. *)
Lemma parse_elements_back (i' stepback : string) (xs : list value) :
  Forall reads_back xs -> forallb is_json xs = true ->
  blank i' -> blank stepback -> xs <> [] ->
  forall fuel w rest,
    blank w ->
    (fold_right (fun x acc => S (need x + acc)) O xs <= fuel)%nat ->
    parse_elements fuel
      (w ++ String.concat ("," ++ newline ++ i') (map (ser i') xs)
         ++ (newline ++ stepback) ++ "]" ++ rest)
    = Some (xs, rest).
Proof.
  intros HF Hjson Hi Hstep.
  induction xs as [| x xs IH]; intros Hne fuel w rest Hw Hfuel;
    [contradiction |].
  inversion HF as [| ? ? Hx HF']; subst.
  simpl in Hjson. apply andb_true_iff in Hjson as [Hjx Hjxs].
  destruct (Hx Hjx i' Hi) as [_ [_ [_ Hparse]]].
  destruct fuel as [| f]; [simpl in Hfuel; lia |].
  rewrite parse_elements_S, parse_value_blank by assumption.
  destruct xs as [| y ys].
  - cbn [map String.concat].
    rewrite Hparse; [| simpl in Hfuel; lia | reflexivity].
    rewrite (next_is_blank "," (newline ++ stepback)),
      (next_is_blank "]" (newline ++ stepback)) by auto with blank.
    reflexivity.
  - change (String.concat ("," ++ newline ++ i') (map (ser i') (x :: y :: ys)))
      with (ser i' x ++ ("," ++ newline ++ i')
              ++ String.concat ("," ++ newline ++ i') (map (ser i') (y :: ys))).
    rewrite !append_assoc.
    rewrite Hparse; [| simpl in Hfuel; simpl; lia | reflexivity].
    rewrite next_is_comma.
    rewrite <- (append_assoc newline i'), <- (append_assoc newline stepback).
    rewrite IH; try assumption; [reflexivity | discriminate |].
    simpl in Hfuel; simpl; lia.
Qed.

Lemma next_is_colon (rest : string) :
  next_is ":" (": " ++ rest) = Some (" " ++ rest).
Proof. reflexivity. Qed.

(** The properties of a non-empty object are read back from their lines. *)
Lemma parse_members_back (i' stepback : string) (ps : list (string * value)) :
  Forall (fun kv => reads_back (snd kv)) ps ->
  forallb (fun kv => is_json (snd kv)) ps = true ->
  blank i' -> blank stepback -> ps <> [] ->
  forall fuel w rest,
    blank w ->
    (fold_right (fun kv acc => S (need (snd kv) + acc)) O ps <= fuel)%nat ->
    parse_members fuel
      (w ++ String.concat ("," ++ newline ++ i') (map (member_text i') ps)
         ++ (newline ++ stepback) ++ "}" ++ rest)
    = Some (ps, rest).
Proof.
  intros HF Hjson Hi Hstep.
  induction ps as [| [k v] ps IH]; intros Hne fuel w rest Hw Hfuel;
    [contradiction |].
  inversion HF as [| ? ? Hv HF']; subst.
  simpl in Hjson. apply andb_true_iff in Hjson as [Hjv Hjps].
  destruct (Hv Hjv i' Hi) as [_ [_ [_ Hparse]]]. simpl in Hparse.
  destruct fuel as [| f]; [simpl in Hfuel; lia |].
  rewrite parse_members_S, next_is_blank by assumption.
  destruct ps as [| kv' ps].
  - cbn [map String.concat]. unfold member_text at 1. cbn [fst snd].
    rewrite !append_assoc, quoted_shape, next_is_hit by reflexivity.
    rewrite parse_string_body_escape, next_is_colon.
    rewrite (parse_value_blank f " ") by auto with blank.
    rewrite Hparse; [| simpl in Hfuel; lia | reflexivity].
    rewrite <- (append_assoc newline stepback).
    rewrite (next_is_blank "," (newline ++ stepback)),
      (next_is_blank "}" (newline ++ stepback)) by auto with blank.
    reflexivity.
  - change (String.concat ("," ++ newline ++ i')
              (map (member_text i') ((k, v) :: kv' :: ps)))
      with (member_text i' (k, v) ++ ("," ++ newline ++ i')
              ++ String.concat ("," ++ newline ++ i')
                   (map (member_text i') (kv' :: ps))).
    unfold member_text at 1. cbn [fst snd].
    rewrite !append_assoc, quoted_shape, next_is_hit by reflexivity.
    rewrite parse_string_body_escape, next_is_colon.
    rewrite (parse_value_blank f " ") by auto with blank.
    rewrite Hparse; [| simpl in Hfuel; simpl; lia | reflexivity].
    rewrite next_is_comma.
    rewrite <- (append_assoc newline i'), <- (append_assoc newline stepback).
    rewrite IH; try assumption; [reflexivity | discriminate |].
    simpl in Hfuel; simpl; lia.
Qed.

Lemma ser_object (indent : string) (ps : list (string * value)) :
  Forall (fun kv =>
            SerializeJSONProperty (indent ++ gap) (snd kv)
            = Some (ser (indent ++ gap) (snd kv))) ps ->
  ser indent (VObj ps)
  = wrap_partial "{" "}" indent (map (member_text (indent ++ gap)) ps).
Proof.
  intros HF. unfold ser at 1. cbn [SerializeJSONProperty]. f_equal.
  induction HF as [| kv ps Hkv HF IH]; [reflexivity |].
  cbn [flat_map map]. rewrite Hkv, IH. reflexivity.
Qed.

(** Every JSON value is read back from its text, at any indentation. *)
Theorem value_reads_back (v : value) : reads_back v.
Proof.
  induction v as [| | b | n | | s | xs IH | ps IH] using value_nested_ind;
    intros Hjson indent Hindent; try discriminate Hjson.
  - (* null *)
    repeat split; [simpl; lia |].
    intros [| f] rest Hfuel _; [simpl in Hfuel; lia | reflexivity].
  - (* true, false *)
    destruct b; (repeat split; [simpl; lia |]);
      intros [| f] rest Hfuel _; solve [simpl in Hfuel; lia | reflexivity].
  - (* numbers *)
    repeat split.
    + intros rest. apply starts_value_NumberToString.
    + apply NumberToString_nonempty.
    + intros [| f] rest Hfuel Hrest; [simpl in Hfuel; lia |].
      change (ser indent (VNum n)) with (NumberToString n).
      rewrite parse_value_number. now apply parse_number_NumberToString.
  - (* strings *)
    repeat split.
    + change (ser indent (VStr s)) with (QuoteJSONString s).
      unfold QuoteJSONString. simpl. lia.
    + intros [| f] rest Hfuel _; [simpl in Hfuel; lia |].
      change (ser indent (VStr s)) with (QuoteJSONString s).
      now rewrite quoted_shape, parse_value_string, parse_string_body_escape.
  - (* arrays *)
    simpl in Hjson.
    assert (Hi' : blank (indent ++ gap)) by auto with blank.
    change (ser indent (VArr xs))
      with (wrap_partial "[" "]" indent (map (ser (indent ++ gap)) xs)).
    split; [reflexivity |]. split; [| split].
    + intros rest. now destruct xs.
    + destruct (wrap_partial_length "[" "]" indent
                  (map (ser (indent ++ gap)) xs)) as [Hmin Hlen].
      destruct xs as [| x xs]; [simpl; lia |].
      specialize (Hlen ltac:(discriminate)).
      assert (Hbound :
        (fold_right (fun x acc => S (need x + acc)) O (x :: xs)
         <= S (String.length
                 (String.concat ("," ++ newline ++ indent ++ gap)
                    (map (ser (indent ++ gap)) (x :: xs)))))%nat).
      { apply concat_need_bound; [simpl; lia |].
        rewrite Forall_forall in IH |- *. rewrite forallb_forall in Hjson.
        intros y Hy. now apply (IH y Hy (Hjson y Hy) (indent ++ gap) Hi'). }
      change (need (VArr (x :: xs)))
        with (S (fold_right (fun x acc => S (need x + acc)) O (x :: xs))).
      change (String.length "[") with 1%nat in Hlen.
      change (String.length "]") with 1%nat in Hlen. lia.
    + intros fuel rest Hfuel Hrest.
      destruct fuel as [| f]; [simpl in Hfuel; lia |].
      destruct xs as [| x xs]; [reflexivity |].
      cbn [map]. rewrite wrap_partial_nonempty, parse_value_array.
      rewrite next_is_blank by auto with blank.
      assert (Hstart : forall tail,
        starts_value
          (String.concat ("," ++ newline ++ indent ++ gap)
             (ser (indent ++ gap) x :: map (ser (indent ++ gap)) xs) ++ tail)
        = true).
      { inversion IH as [| ? ? Hx _]; subst.
        simpl in Hjson. apply andb_true_iff in Hjson as [Hjx _].
        destruct (Hx Hjx (indent ++ gap) Hi') as [_ [Hs _]].
        intros tail. destruct xs as [| y ys]; cbn [map String.concat].
        - apply Hs.
        - rewrite append_assoc. apply Hs. }
      destruct (starts_value_not_closing _ (Hstart ((newline ++ indent) ++ "]" ++ rest)))
        as [-> _].
      change (ser (indent ++ gap) x :: map (ser (indent ++ gap)) xs)
        with (map (ser (indent ++ gap)) (x :: xs)).
      rewrite parse_elements_back; try assumption;
        [reflexivity | discriminate |].
      simpl in Hfuel. simpl. lia.
  - (* objects *)
    simpl in Hjson. apply andb_true_iff in Hjson as [Hkeys Hjson].
    assert (Hi' : blank (indent ++ gap)) by auto with blank.
    assert (Hser : Forall (fun kv =>
              SerializeJSONProperty (indent ++ gap) (snd kv)
              = Some (ser (indent ++ gap) (snd kv))) ps).
    { rewrite Forall_forall in IH |- *. rewrite forallb_forall in Hjson.
      intros kv Hkv. now apply (IH kv Hkv (Hjson kv Hkv) (indent ++ gap) Hi'). }
    split; [reflexivity |].
    rewrite (ser_object indent ps Hser). split; [| split].
    + intros rest. now destruct ps.
    + destruct (wrap_partial_length "{" "}" indent
                  (map (member_text (indent ++ gap)) ps)) as [Hmin Hlen].
      destruct ps as [| kv ps]; [simpl; lia |].
      specialize (Hlen ltac:(discriminate)).
      assert (Hbound :
        (fold_right (fun kv acc => S (need (snd kv) + acc)) O (kv :: ps)
         <= S (String.length
                 (String.concat ("," ++ newline ++ indent ++ gap)
                    (map (member_text (indent ++ gap)) (kv :: ps)))))%nat).
      { apply concat_need_bound; [simpl; lia |].
        rewrite Forall_forall in IH |- *. rewrite forallb_forall in Hjson.
        intros y Hy.
        destruct (IH y Hy (Hjson y Hy) (indent ++ gap) Hi') as [_ [_ [Hlen' _]]].
        unfold member_text. rewrite !length_append. lia. }
      change (need (VObj (kv :: ps)))
        with (S (fold_right (fun kv acc => S (need (snd kv) + acc)) O (kv :: ps))).
      change (String.length "{") with 1%nat in Hlen.
      change (String.length "}") with 1%nat in Hlen. lia.
    + intros fuel rest Hfuel Hrest.
      destruct fuel as [| f]; [simpl in Hfuel; lia |].
      destruct ps as [| kv ps]; [reflexivity |].
      cbn [map]. rewrite wrap_partial_nonempty, parse_value_object.
      rewrite next_is_blank by auto with blank.
      assert (Hstart : forall tail,
        starts_value
          (String.concat ("," ++ newline ++ indent ++ gap)
             (member_text (indent ++ gap) kv
              :: map (member_text (indent ++ gap)) ps) ++ tail)
        = true).
      { intros tail. destruct ps as [| y ys]; cbn [map String.concat];
          unfold member_text at 1; now rewrite !append_assoc, quoted_shape. }
      destruct (starts_value_not_closing _ (Hstart ((newline ++ indent) ++ "}" ++ rest)))
        as [_ ->].
      change (member_text (indent ++ gap) kv
              :: map (member_text (indent ++ gap)) ps)
        with (map (member_text (indent ++ gap)) (kv :: ps)).
      rewrite parse_members_back; try assumption; [| discriminate |].
      * now rewrite object_of_distinct.
      * simpl in Hfuel. simpl. lia.
Qed.

(** [JSON_parse] undoes [JSON_stringify] on every JSON value of the model;
    on the values with [safe_numbers] both are the engine's. *)
Lemma JSON_parse_stringify (v : value) :
  is_json v = true ->
  exists payload, JSON_stringify v = Some payload /\ JSON_parse payload = Some v.
Proof.
  intros Hjson.
  destruct (value_reads_back v Hjson "" blank_empty) as [Hser [_ [Hlen Hparse]]].
  exists (ser "" v). split; [exact Hser |].
  unfold JSON_parse.
  specialize (Hparse (S (String.length (ser "" v))) "" ltac:(lia) eq_refl).
  rewrite append_empty_r in Hparse. now rewrite Hparse.
Qed.

(** * Further properties of the two handlers *)

Lemma listed_names_catalog : listed_names = map VStr catalog.
Proof. reflexivity. Qed.

Lemma listed_in_catalog (toolName : string) :
  In (VStr toolName) listed_names <-> In toolName catalog.
Proof.
  rewrite listed_names_catalog, in_map_iff. split.
  - intros [name [E Hin]]. now injection E as <-.
  - intros Hin. now exists toolName.
Qed.

Lemma yields_text_ret (v : value) : yields_text (ret (text_result v)).
Proof. intros r E. injection E as <-. now exists v. Qed.

Lemma yields_text_throw (e : thrown) : yields_text (throw e).
Proof. intros r E. discriminate E. Qed.

Lemma yields_text_bind {A} (m : M A) (k : A -> M CallToolResult) :
  (forall a, yields_text (k a)) -> yields_text (bind m k).
Proof.
  intros Hk r. destruct m as [log [e | a]]; simpl; [discriminate |].
  specialize (Hk a r). destruct (k a) as [log' res]. exact Hk.
Qed.

Section Boundary.

Variable FEED_ID : string.
Variable apiClient : HttpCallSpec -> HttpOutcome.

Lemma dispatch_yields_text toolName args :
  yields_text (dispatch FEED_ID apiClient toolName args).
Proof.
  unfold dispatch.
  repeat match goal with
  | |- context [(toolName =? ?name)%string] =>
      destruct (toolName =? name)%string
  end;
  repeat first
    [ apply yields_text_ret | apply yields_text_throw
    | apply yields_text_bind; intro ].
Qed.

Lemma dispatch_calls_at_most_one toolName args :
  (List.length (http_calls (fst (dispatch FEED_ID apiClient toolName args))) <= 1)%nat.
Proof.
  destruct (dispatch_shape FEED_ID apiClient toolName args)
    as [[e [-> _]] | [c [k [-> Hk]]]].
  - simpl. lia.
  - rewrite fst_perform_then by assumption. simpl. lia.
Qed.

End Boundary.

(** X1. The handler never throws: whatever the tool name and the arguments
    are, and whether the remote call resolves or is rejected, the result it
    returns has one content item, of type text.  (A call that never settles
    is outside the model: no timeout is set, the handler then stays
    pending.) *)
Theorem handler_returns_one_text_item :
  forall FEED_ID apiClient toolName args,
    exists t,
      snd (callToolHandler FEED_ID apiClient toolName args)
      = inr (mkResult [mkText "text" t]).
Proof.
  intros FEED_ID apiClient toolName args.
  pose proof (dispatch_yields_text FEED_ID apiClient toolName args) as Hy.
  unfold callToolHandler, try_catch.
  destruct (dispatch FEED_ID apiClient toolName args) as [log [e | r]].
  - rewrite on_error_eq. simpl. eexists. reflexivity.
  - destruct (Hy r eq_refl) as [v ->]. simpl. eexists. reflexivity.
Qed.

(** X2. No invocation calls the remote API more than once. *)
Theorem at_most_one_remote_call :
  forall FEED_ID apiClient toolName args,
    (List.length
       (http_calls (fst (callToolHandler FEED_ID apiClient toolName args)))
     <= 1)%nat.
Proof.
  intros. rewrite callToolHandler_calls. apply dispatch_calls_at_most_one.
Qed.

(** X3. The [switch] and the listing agree: the [try] block ends in the
    [Unknown tool] error exactly for the names the listing does not
    contain. *)
Theorem unknown_iff_not_listed :
  forall FEED_ID apiClient toolName args,
    dispatch FEED_ID apiClient toolName args
    = throw (Error ("Unknown tool: " ++ toolName))
    <-> ~ In (VStr toolName) listed_names.
Proof.
  intros FEED_ID apiClient toolName args. rewrite listed_in_catalog. split.
  - intros E Hin. simpl in Hin.
    repeat (destruct Hin as [<- | Hin]); try contradiction;
      revert E; switch;
      try (intros E; apply (f_equal fst) in E;
           rewrite fst_perform_then in E by (intro; silence);
           discriminate E);
      destruct args; try discriminate;
      rewrite !get_prop_member, !bind_ret by reflexivity;
      intros E; apply (f_equal fst) in E;
      rewrite fst_perform_then in E by (intro; silence);
      discriminate E.
  - apply dispatch_unknown.
Qed.

(** X4. A listed tool called with an arguments object, whatever it holds or
    lacks, calls the remote API exactly once: the six search tools post a
    body carrying the configured feed id to the feed endpoint, the other
    four get an entity endpoint of the configured feed with no body. *)
Theorem listed_tool_calls_once :
  forall FEED_ID apiClient toolName args,
    In toolName catalog ->
    nullish args = false ->
    exists c,
      http_calls (fst (callToolHandler FEED_ID apiClient toolName args)) = [c]
      /\ (In toolName feed_tools ->
          call_method c = POST
          /\ call_path c = "/api/content/feed"
          /\ call_params c = None
          /\ exists body,
               call_body c = Some body
               /\ member body "feed_id" = parseInt FEED_ID)
      /\ (~ In toolName feed_tools ->
          call_method c = GET
          /\ call_body c = None
          /\ (call_path c = "/api/content/entity_types/" ++ FEED_ID
              \/ call_path c = "/api/content/entity_values/" ++ FEED_ID)).
Proof.
  intros FEED_ID apiClient toolName args Hin Hargs.
  rewrite callToolHandler_calls. simpl in Hin.
  repeat (destruct Hin as [<- | Hin]); try contradiction; switch;
    rewrite ?get_prop_member, ?bind_ret by assumption;
    rewrite fst_perform_then by (intro; silence);
    (eexists; split; [reflexivity |]); split; intros H.
  all: first
    [ solve [ repeat split; try reflexivity; eexists; split; reflexivity ]
    | solve [ exfalso; apply H; simpl; tauto ]
    | solve [ exfalso; simpl in H;
              repeat (destruct H as [H | H]; [discriminate H |]); exact H ]
    | solve [ repeat split; try reflexivity;
              first [ left; reflexivity | right; reflexivity ] ] ].
Qed.

Lemma listed_tool_calls_once_witness :
  exists c,
    http_calls
      (fst (callToolHandler "292" (fixture (Resolved (VObj [])))
              "search_by_city" (VObj [])))
    = [c]
    /\ call_method c = POST.
Proof.
  destruct (listed_tool_calls_once "292" (fixture (Resolved (VObj [])))
              "search_by_city" (VObj [])
              ltac:(simpl; tauto) eq_refl) as [c [Hc [Hfeed _]]].
  exists c. split; [exact Hc |].
  exact (proj1 (Hfeed ltac:(simpl; tauto))).
Defined.

Lemma type_error_answer (m : string) :
  m <> "" ->
  on_error (TypeError m)
  = ([EvConsoleError "Tool error:" (VStr m)],
     inr (text_result (error_envelope (VStr m) VNull))).
Proof.
  intros Hm. rewrite on_error_eq.
  unfold errorMessage, remote_message, js_or; simpl.
  destruct (String.eqb_spec m ""); [contradiction | reflexivity].
Qed.

(** X5. Called without an arguments object (undefined or null), a tool that
    reads an argument before its request answers with an error envelope
    whose details are null, logs it, and never calls the remote API. *)
Theorem missing_arguments_object :
  forall FEED_ID apiClient toolName args,
    In toolName argument_first_tools ->
    nullish args = true ->
    exists m,
      callToolHandler FEED_ID apiClient toolName args
      = ([EvConsoleError "Tool error:" (VStr m)],
         inr (text_result (error_envelope (VStr m) VNull)))
      /\ http_calls (fst (callToolHandler FEED_ID apiClient toolName args)) = [].
Proof.
  intros FEED_ID apiClient toolName args Hin Hargs. simpl in Hin.
  repeat (destruct Hin as [<- | Hin]); try contradiction;
    destruct args; try discriminate Hargs;
    unfold callToolHandler; switch;
    cbn [get_prop bind throw try_catch]; unfold cannot_read;
    rewrite type_error_answer by (simpl; discriminate);
    (eexists; split; reflexivity).
Qed.

Lemma missing_arguments_object_witness :
  http_calls
    (fst (callToolHandler "292" (fixture (Resolved (VObj [])))
            "search_by_city" VUndefined))
  = [].
Proof.
  destruct (missing_arguments_object "292" (fixture (Resolved (VObj [])))
              "search_by_city" VUndefined
              ltac:(simpl; tauto) eq_refl) as [m [_ Hcalls]].
  exact Hcalls.
Defined.

(** X6. A [case] depends on the arguments object only through the
    properties it reads: two objects that agree on them give the same run,
    so any further argument is ignored. *)
Theorem only_read_arguments_matter :
  forall FEED_ID apiClient toolName args1 args2,
    nullish args1 = false ->
    nullish args2 = false ->
    (forall k, In k (reads toolName) -> member args1 k = member args2 k) ->
    callToolHandler FEED_ID apiClient toolName args1
    = callToolHandler FEED_ID apiClient toolName args2.
Proof.
  intros FEED_ID apiClient toolName args1 args2 H1 H2 Hsame.
  unfold callToolHandler. f_equal.
  destruct (in_dec string_dec toolName catalog) as [Hin | Hnot];
    [| now rewrite !dispatch_unknown by assumption].
  simpl in Hin.
  repeat (destruct Hin as [<- | Hin]); try contradiction; switch;
    rewrite ?get_prop_member by assumption;
    try reflexivity;
    simpl in Hsame;
    repeat match goal with
    | |- context [member args1 ?k] => rewrite (Hsame k) by tauto
    end;
    reflexivity.
Qed.

Lemma only_read_arguments_matter_witness :
  callToolHandler "292" (fixture (Resolved (VObj [])))
    "get_latest_market_report_by_city"
    (VObj [("city_name", VStr "Miami")])
  = callToolHandler "292" (fixture (Resolved (VObj [])))
      "get_latest_market_report_by_city"
      (VObj [("page_size", VNum 40); ("city_name", VStr "Miami")]).
Proof.
  refine (only_read_arguments_matter "292" (fixture (Resolved (VObj [])))
            "get_latest_market_report_by_city"
            (VObj [("city_name", VStr "Miami")])
            (VObj [("page_size", VNum 40); ("city_name", VStr "Miami")])
            eq_refl eq_refl _).
  intros k Hk. simpl in Hk. destruct Hk as [<- | []]. reflexivity.
Defined.

(** ** Entity discovery *)

Lemma lookup_cities_calls FEED_ID apiClient args :
  http_calls (fst (callToolHandler FEED_ID apiClient "lookup_cities" args))
  = [entity_values_call FEED_ID (VStr "city")].
Proof.
  rewrite callToolHandler_calls. switch.
  now rewrite fst_perform_then by (intro; silence).
Qed.

Lemma list_report_types_calls FEED_ID apiClient args :
  http_calls (fst (callToolHandler FEED_ID apiClient "list_report_types" args))
  = [entity_values_call FEED_ID (VStr "Report")].
Proof.
  rewrite callToolHandler_calls. switch.
  now rewrite fst_perform_then by (intro; silence).
Qed.

Lemma list_entity_values_calls FEED_ID apiClient args :
  nullish args = false ->
  http_calls (fst (callToolHandler FEED_ID apiClient "list_entity_values" args))
  = [entity_values_call FEED_ID (member args "entity_type")].
Proof.
  intros Hargs. rewrite callToolHandler_calls. switch.
  rewrite get_prop_member, bind_ret by assumption.
  now rewrite fst_perform_then by (intro; silence).
Qed.

(** X7. [list_entity_values] gets the entity values of the configured feed
    with the caller's [entity_type] as the only query parameter (undefined
    when the caller left it out, the call is made all the same) and returns
    the remote body as it is. *)
Theorem list_entity_values_request :
  forall FEED_ID apiClient args,
    nullish args = false ->
    http_calls (fst (callToolHandler FEED_ID apiClient "list_entity_values" args))
    = [mkCall GET ("/api/content/entity_values/" ++ FEED_ID)
         (Some (VObj [("entity_type", member args "entity_type")])) None]
    /\ forall data,
         apiClient (entity_values_call FEED_ID (member args "entity_type"))
         = Resolved data ->
         snd (callToolHandler FEED_ID apiClient "list_entity_values" args)
         = inr (text_result data).
Proof.
  intros FEED_ID apiClient args Hargs. split.
  - now apply list_entity_values_calls.
  - intros data Hcall. unfold callToolHandler. switch.
    rewrite get_prop_member, bind_ret by assumption.
    fold (entity_values_call FEED_ID (member args "entity_type")).
    now rewrite (bind_perform_resolved apiClient _ _ data Hcall).
Qed.

Lemma list_entity_values_request_witness :
  snd (callToolHandler "292"
         (fixture (Resolved (VObj [("unique_entity_value", VArr [VStr "Austin"])])))
         "list_entity_values" (VObj []))
  = inr (text_result (VObj [("unique_entity_value", VArr [VStr "Austin"])])).
Proof.
  exact (proj2 (list_entity_values_request "292"
           (fixture (Resolved (VObj [("unique_entity_value", VArr [VStr "Austin"])])))
           (VObj []) eq_refl) _ eq_refl).
Defined.

(** X8. [lookup_cities] and [list_report_types] make the request
    [list_entity_values] makes for the entity types [city] and [Report],
    whatever their own arguments are: the partial name is never sent. *)
Theorem city_and_report_lookups_reuse_entity_values :
  forall FEED_ID apiClient args,
    http_calls (fst (callToolHandler FEED_ID apiClient "lookup_cities" args))
    = http_calls
        (fst (callToolHandler FEED_ID apiClient "list_entity_values"
                (VObj [("entity_type", VStr "city")])))
    /\ http_calls (fst (callToolHandler FEED_ID apiClient "list_report_types" args))
       = http_calls
           (fst (callToolHandler FEED_ID apiClient "list_entity_values"
                   (VObj [("entity_type", VStr "Report")])))
    /\ http_calls (fst (callToolHandler FEED_ID apiClient "lookup_cities" args))
       = [mkCall GET ("/api/content/entity_values/" ++ FEED_ID)
            (Some (VObj [("entity_type", VStr "city")])) None].
Proof.
  intros FEED_ID apiClient args.
  rewrite lookup_cities_calls, list_report_types_calls,
    !list_entity_values_calls by reflexivity.
  repeat split.
Qed.

(** X9. Every tool but [lookup_cities] and [list_report_types] returns the
    body of a successful remote answer as it is: the text of the result is
    its serialization, and for a JSON body whose numbers are safe integers
    parsing the text gives the body back. *)
Theorem passthrough_tools_return_remote_body :
  forall FEED_ID apiClient toolName args c data,
    In toolName passthrough_tools ->
    In c (http_calls (fst (callToolHandler FEED_ID apiClient toolName args))) ->
    apiClient c = Resolved data ->
    snd (callToolHandler FEED_ID apiClient toolName args)
    = inr (text_result data)
    /\ (is_json data = true ->
        safe_numbers data = true ->
        exists payload,
          snd (callToolHandler FEED_ID apiClient toolName args)
          = inr (mkResult [mkText "text" (Some payload)])
          /\ JSON_parse payload = Some data).
Proof.
  intros FEED_ID apiClient toolName args c data Hin Hc Hcall.
  assert (Hrun : snd (callToolHandler FEED_ID apiClient toolName args)
                 = inr (text_result data)).
  { rewrite callToolHandler_calls in Hc. unfold callToolHandler.
    simpl in Hin.
    repeat (destruct Hin as [<- | Hin]); try contradiction;
      revert Hc; switch;
      try (destruct args; try (intros []);
           rewrite !get_prop_member, !bind_ret by reflexivity);
      rewrite fst_perform_then by (intro; silence);
      intros [<- | []];
      now rewrite (bind_perform_resolved apiClient _ _ data Hcall). }
  split; [exact Hrun |].
  intros Hjson _.
  destruct (JSON_parse_stringify data Hjson) as [payload [Hser Hparse]].
  exists payload. split; [| exact Hparse].
  rewrite Hrun. unfold text_result. now rewrite Hser.
Qed.

Lemma passthrough_tools_return_remote_body_witness :
  exists payload,
    snd (callToolHandler "292"
           (fixture (Resolved (VObj [("unique_entity_type",
                                      VArr [VStr "Report"; VStr "city"]);
                                     ("total", VNum 2)])))
           "list_available_entity_types" VUndefined)
    = inr (mkResult [mkText "text" (Some payload)])
    /\ JSON_parse payload
       = Some (VObj [("unique_entity_type", VArr [VStr "Report"; VStr "city"]);
                     ("total", VNum 2)]).
Proof.
  refine (proj2 (passthrough_tools_return_remote_body "292"
    (fixture (Resolved (VObj [("unique_entity_type",
                               VArr [VStr "Report"; VStr "city"]);
                              ("total", VNum 2)])))
    "list_available_entity_types" VUndefined
    (entity_types_call "292")
    (VObj [("unique_entity_type", VArr [VStr "Report"; VStr "city"]);
           ("total", VNum 2)]) _ _ eq_refl) eq_refl eq_refl).
  - simpl; tauto.
  - left; reflexivity.
Defined.

(** ** Search requests *)

(** X10. [search_by_report_type] posts a query whose only entity filter has
    the entity type [Report], capitalized, and the caller's [report_type] as
    value, with the pagination arguments or their defaults. *)
Theorem search_by_report_type_query :
  forall FEED_ID apiClient props,
    http_calls
      (fst (callToolHandler FEED_ID apiClient "search_by_report_type" (VObj props)))
    = [mkCall POST "/api/content/feed" None
         (Some (VObj [("feed_id", parseInt FEED_ID);
                      ("page_num", js_or (member (VObj props) "page_num") (VNum 0));
                      ("page_size", js_or (member (VObj props) "page_size") (VNum 10));
                      ("entity_details",
                       VArr [VObj [("entity_type", VStr "Report");
                                   ("entity_value",
                                    member (VObj props) "report_type")]])]))].
Proof.
  intros FEED_ID apiClient props.
  rewrite callToolHandler_calls. switch.
  rewrite !get_prop_member, !bind_ret, fst_perform_then
    by (reflexivity || (intro; silence)).
  reflexivity.
Qed.

(** X11. [search_reports_by_date_range] posts [start_date] and [end_date]
    as [published_date_from] and [published_date_to]; its query has no
    [entity_details] property at all, and a date left out is undefined, so
    that the serialized query has no bound on that side. *)
Theorem date_range_query_has_no_entity_filter :
  forall FEED_ID apiClient props,
    exists body,
      http_calls
        (fst (callToolHandler FEED_ID apiClient
                "search_reports_by_date_range" (VObj props)))
      = [feed_call (VObj body)]
      /\ own_property "entity_details" body = None
      /\ own_property "published_date_from" body
         = Some (member (VObj props) "start_date")
      /\ own_property "published_date_to" body
         = Some (member (VObj props) "end_date")
      /\ (own_property "start_date" props = None ->
          own_property "published_date_from" body = Some VUndefined).
Proof.
  intros FEED_ID apiClient props.
  rewrite callToolHandler_calls. switch.
  rewrite !get_prop_member, !bind_ret, fst_perform_then
    by (reflexivity || (intro; silence)).
  eexists. split; [reflexivity |].
  repeat split. simpl. now intros ->.
Qed.

(** ** City lookup, further *)

Lemma lower_unit_idempotent (c : ascii) : lower_unit (lower_unit c) = lower_unit c.
Proof. destruct c as [[] [] [] [] [] [] [] []]; reflexivity. Qed.

Lemma toLowerCase_idempotent (s : string) :
  toLowerCase (toLowerCase s) = toLowerCase s.
Proof.
  induction s as [| c s IH]; simpl; [reflexivity |].
  now rewrite lower_unit_idempotent, IH.
Qed.

Lemma includes_empty (s : string) : includes s "" = true.
Proof. destruct s; reflexivity. Qed.

Lemma bind_perform_ext {B} apiClient c (k1 k2 : value -> M B) :
  (forall data, k1 data = k2 data) ->
  bind (perform apiClient c) k1 = bind (perform apiClient c) k2.
Proof.
  intros Hk. unfold perform, bind.
  destruct (apiClient c) as [data | m r]; [now rewrite Hk | reflexivity].
Qed.

(** What [lookup_cities] does after its request, as one step. *)
Lemma lookup_cities_dispatch FEED_ID apiClient args :
  dispatch FEED_ID apiClient "lookup_cities" args
  = bind (perform apiClient (entity_values_call FEED_ID (VStr "city")))
      (fun data =>
         partial_name <- get_prop args "partial_name" ;;
         partialNameLower <- call_toLowerCase "args.partial_name" partial_name ;;
         cities <- get_prop data "unique_entity_value" ;;
         matchedCities <-
           call_filter "response.data.unique_entity_value" cities
             (fun city =>
                lowered <- call_toLowerCase "city" city ;;
                ret (includes lowered partialNameLower)) ;;
         ret (text_result
                (VObj [("status", VStr "success");
                       ("matched_cities", VArr matchedCities);
                       ("count", VNum (Z.of_nat (List.length matchedCities)));
                       ("usage_note", VStr usage_note_cities)]))).
Proof. reflexivity. Qed.

(** X12. [lookup_cities] sees [partial_name] only through its lowercased
    form: two partial names that differ in case alone give the same run,
    whatever the remote answers. *)
Theorem lookup_cities_ignores_case_of_partial_name :
  forall FEED_ID apiClient props1 props2 name1 name2,
    own_property "partial_name" props1 = Some (VStr name1) ->
    own_property "partial_name" props2 = Some (VStr name2) ->
    toLowerCase name1 = toLowerCase name2 ->
    callToolHandler FEED_ID apiClient "lookup_cities" (VObj props1)
    = callToolHandler FEED_ID apiClient "lookup_cities" (VObj props2).
Proof.
  intros FEED_ID apiClient props1 props2 name1 name2 H1 H2 Hlower.
  unfold callToolHandler. rewrite !lookup_cities_dispatch. f_equal.
  apply bind_perform_ext. intros data.
  rewrite (get_prop_member (VObj props1)), (get_prop_member (VObj props2)),
    !bind_ret by reflexivity.
  cbn [member]. rewrite H1, H2. cbn [call_toLowerCase].
  rewrite !bind_ret, Hlower. reflexivity.
Qed.

Lemma lookup_cities_ignores_case_of_partial_name_witness :
  callToolHandler "292"
    (fixture (Resolved (VObj [("unique_entity_value",
                               VArr [VStr "New York"; VStr "Boston"])])))
    "lookup_cities" (VObj [("partial_name", VStr "NEW")])
  = callToolHandler "292"
      (fixture (Resolved (VObj [("unique_entity_value",
                                 VArr [VStr "New York"; VStr "Boston"])])))
      "lookup_cities" (VObj [("partial_name", VStr "new")]).
Proof.
  exact (lookup_cities_ignores_case_of_partial_name "292"
           (fixture (Resolved (VObj [("unique_entity_value",
                                      VArr [VStr "New York"; VStr "Boston"])])))
           [("partial_name", VStr "NEW")] [("partial_name", VStr "new")]
           "NEW" "new" eq_refl eq_refl eq_refl).
Defined.

Lemma filter_all_true {A} (f : A -> bool) (l : list A) :
  (forall x, f x = true) -> filter f l = l.
Proof.
  intros Hf. induction l as [| x l IH]; simpl; [reflexivity |].
  now rewrite Hf, IH.
Qed.

(** The run of [lookup_cities] on a string and a list of strings. *)
Lemma lookup_cities_run FEED_ID apiClient props partial_name data cities :
  own_property "partial_name" props = Some (VStr partial_name) ->
  apiClient (entity_values_call FEED_ID (VStr "city")) = Resolved data ->
  member data "unique_entity_value" = VArr (map VStr cities) ->
  callToolHandler FEED_ID apiClient "lookup_cities" (VObj props)
  = ([EvHttp (entity_values_call FEED_ID (VStr "city"))],
     inr (text_result
            (lookup_payload
               (filter (fun city =>
                          includes (toLowerCase city) (toLowerCase partial_name))
                       cities)))).
Proof.
  intros Hname Hcall Hlist.
  unfold callToolHandler.
  rewrite lookup_cities_dispatch, (bind_perform_resolved apiClient _ _ data Hcall).
  assert (Hdata : nullish data = false)
    by (destruct data; try reflexivity; discriminate Hlist).
  rewrite (get_prop_member (VObj props)), (get_prop_member data),
    !bind_ret by (reflexivity || assumption).
  cbn [member]. rewrite Hname, Hlist.
  cbn [call_toLowerCase]. rewrite !bind_ret.
  cbn [call_filter]. rewrite filterM_cities, bind_ret.
  unfold lookup_payload, usage_note_cities.
  rewrite !length_map. reflexivity.
Qed.

(** X13. An empty [partial_name] matches every city: [lookup_cities] then
    returns the whole remote list, in its order, and its length as count. *)
Theorem lookup_cities_empty_name_returns_all :
  forall FEED_ID apiClient props data cities,
    own_property "partial_name" props = Some (VStr "") ->
    apiClient (entity_values_call FEED_ID (VStr "city")) = Resolved data ->
    member data "unique_entity_value" = VArr (map VStr cities) ->
    snd (callToolHandler FEED_ID apiClient "lookup_cities" (VObj props))
    = inr (text_result
             (VObj [("status", VStr "success");
                    ("matched_cities", VArr (map VStr cities));
                    ("count", VNum (Z.of_nat (List.length cities)));
                    ("usage_note",
                     VStr "Use one of these exact city names with the search_by_city tool")])).
Proof.
  intros FEED_ID apiClient props data cities Hname Hcall Hlist.
  rewrite (lookup_cities_run _ _ _ _ _ _ Hname Hcall Hlist).
  rewrite filter_all_true by (intro; apply includes_empty).
  reflexivity.
Qed.

Lemma lookup_cities_empty_name_returns_all_witness :
  snd (callToolHandler "292"
         (fixture (Resolved (VObj [("unique_entity_value",
                                    VArr [VStr "Austin"; VStr "Boston"])])))
         "lookup_cities" (VObj [("partial_name", VStr "")]))
  = inr (text_result (lookup_payload ["Austin"; "Boston"])).
Proof.
  exact (lookup_cities_empty_name_returns_all "292"
           (fixture (Resolved (VObj [("unique_entity_value",
                                      VArr [VStr "Austin"; VStr "Boston"])])))
           [("partial_name", VStr "")]
           (VObj [("unique_entity_value", VArr [VStr "Austin"; VStr "Boston"])])
           ["Austin"; "Boston"] eq_refl eq_refl eq_refl).
Defined.

(** The answer to a [TypeError] thrown after the one call of a run. *)
Lemma type_error_after_call FEED_ID apiClient toolName args c
      (k : value -> M CallToolResult) data m :
  dispatch FEED_ID apiClient toolName args = bind (perform apiClient c) k ->
  apiClient c = Resolved data ->
  k data = throw (TypeError m) ->
  m <> "" ->
  callToolHandler FEED_ID apiClient toolName args
  = ([EvHttp c; EvConsoleError "Tool error:" (VStr m)],
     inr (text_result (error_envelope (VStr m) VNull))).
Proof.
  intros Hd Hcall Hk Hm. unfold callToolHandler.
  rewrite Hd, (bind_perform_resolved apiClient _ _ data Hcall), Hk.
  cbn [throw fst snd try_catch]. now rewrite type_error_answer.
Qed.

(** X14. [lookup_cities] calls the remote API before it looks at
    [partial_name]: when that is missing or not a string, or there is no
    arguments object, the call is made all the same and the answer is an
    error envelope with null details. *)
Theorem lookup_cities_needs_string_after_call :
  forall FEED_ID apiClient args data,
    (forall s, get_prop args "partial_name" <> ret (VStr s)) ->
    apiClient (entity_values_call FEED_ID (VStr "city")) = Resolved data ->
    exists m,
      callToolHandler FEED_ID apiClient "lookup_cities" args
      = ([EvHttp (entity_values_call FEED_ID (VStr "city"));
          EvConsoleError "Tool error:" (VStr m)],
         inr (text_result (error_envelope (VStr m) VNull))).
Proof.
  intros FEED_ID apiClient args data Hname Hcall.
  assert (Hthrow : exists m,
    m <> ""
    /\ (partial_name <- get_prop args "partial_name" ;;
        partialNameLower <- call_toLowerCase "args.partial_name" partial_name ;;
        cities <- get_prop data "unique_entity_value" ;;
        matchedCities <-
          call_filter "response.data.unique_entity_value" cities
            (fun city =>
               lowered <- call_toLowerCase "city" city ;;
               ret (includes lowered partialNameLower)) ;;
        ret (text_result
               (VObj [("status", VStr "success");
                      ("matched_cities", VArr matchedCities);
                      ("count", VNum (Z.of_nat (List.length matchedCities)));
                      ("usage_note", VStr usage_note_cities)])))
       = throw (TypeError m)).
  { destruct (nullish args) eqn:Hargs.
    - destruct args; try discriminate Hargs;
        (eexists; split; [| reflexivity]; simpl; discriminate).
    - rewrite get_prop_member, bind_ret by assumption.
      rewrite get_prop_member in Hname by assumption.
      destruct (member args "partial_name") as [| | b | n | | s | xs | ps];
        try (eexists; split; [| reflexivity]; simpl; discriminate).
      now destruct (Hname s). }
  destruct Hthrow as [m [Hm Hthrow]]. exists m.
  now apply (type_error_after_call _ _ _ _ _ _ data m
               (lookup_cities_dispatch FEED_ID apiClient args)).
Qed.

Lemma lookup_cities_needs_string_after_call_witness :
  exists m,
    callToolHandler "292"
      (fixture (Resolved (VObj [("unique_entity_value", VArr [VStr "Austin"])])))
      "lookup_cities" (VObj [("partial_name", VNum 7)])
    = ([EvHttp (entity_values_call "292" (VStr "city"));
        EvConsoleError "Tool error:" (VStr m)],
       inr (text_result (error_envelope (VStr m) VNull))).
Proof.
  refine (lookup_cities_needs_string_after_call "292"
            (fixture (Resolved (VObj [("unique_entity_value", VArr [VStr "Austin"])])))
            (VObj [("partial_name", VNum 7)])
            (VObj [("unique_entity_value", VArr [VStr "Austin"])]) _ eq_refl).
  intros s. simpl. discriminate.
Defined.

Lemma filterM_not_strings (partialNameLower : string) (xs : list value) :
  (forall cities, xs <> map VStr cities) ->
  exists m,
    m <> ""
    /\ filterM
         (fun city =>
            lowered <- call_toLowerCase "city" city ;;
            ret (includes lowered partialNameLower)) xs
       = throw (TypeError m).
Proof.
  induction xs as [| x xs IH]; intros Hnot.
  - now destruct (Hnot []).
  - destruct x as [| | b | n | | s | ys | ps];
      try (eexists; split; [| reflexivity]; simpl; discriminate).
    destruct IH as [m [Hm E]].
    + intros cities ->. now apply (Hnot (s :: cities)).
    + exists m. split; [exact Hm |].
      cbn [filterM call_toLowerCase]. now rewrite bind_ret, E.
Qed.

(** X15. [lookup_cities] returns no partial list: with a string
    [partial_name], unless the remote body holds an array of strings under
    [unique_entity_value] the answer is an error envelope with null
    details. *)
Theorem lookup_cities_needs_list_of_strings :
  forall FEED_ID apiClient props partial_name data,
    own_property "partial_name" props = Some (VStr partial_name) ->
    apiClient (entity_values_call FEED_ID (VStr "city")) = Resolved data ->
    (forall cities, member data "unique_entity_value" <> VArr (map VStr cities)) ->
    exists m,
      callToolHandler FEED_ID apiClient "lookup_cities" (VObj props)
      = ([EvHttp (entity_values_call FEED_ID (VStr "city"));
          EvConsoleError "Tool error:" (VStr m)],
         inr (text_result (error_envelope (VStr m) VNull))).
Proof.
  intros FEED_ID apiClient props partial_name data Hname Hcall Hnot.
  assert (Hthrow : exists m,
    m <> ""
    /\ (partial_name <- get_prop (VObj props) "partial_name" ;;
        partialNameLower <- call_toLowerCase "args.partial_name" partial_name ;;
        cities <- get_prop data "unique_entity_value" ;;
        matchedCities <-
          call_filter "response.data.unique_entity_value" cities
            (fun city =>
               lowered <- call_toLowerCase "city" city ;;
               ret (includes lowered partialNameLower)) ;;
        ret (text_result
               (VObj [("status", VStr "success");
                      ("matched_cities", VArr matchedCities);
                      ("count", VNum (Z.of_nat (List.length matchedCities)));
                      ("usage_note", VStr usage_note_cities)])))
       = throw (TypeError m)).
  { rewrite (get_prop_member (VObj props)), bind_ret by reflexivity.
    cbn [member]. rewrite Hname. cbn [call_toLowerCase]. rewrite bind_ret.
    destruct (nullish data) eqn:Hdata.
    - destruct data; try discriminate Hdata;
        (eexists; split; [| reflexivity]; simpl; discriminate).
    - rewrite get_prop_member, bind_ret by assumption.
      destruct (member data "unique_entity_value") as [| | b | n | | s | xs | ps];
        try (eexists; split; [| reflexivity]; simpl; discriminate).
      destruct (filterM_not_strings (toLowerCase partial_name) xs) as [m [Hm E]].
      + intros cities ->. now apply (Hnot cities).
      + exists m. split; [exact Hm |]. cbn [call_filter]. now rewrite E. }
  destruct Hthrow as [m [Hm Hthrow]]. exists m.
  now apply (type_error_after_call _ _ _ _ _ _ data m
               (lookup_cities_dispatch FEED_ID apiClient (VObj props))).
Qed.

Lemma lookup_cities_needs_list_of_strings_witness :
  exists m,
    callToolHandler "292"
      (fixture (Resolved (VObj [("unique_entity_value",
                                 VArr [VStr "Austin"; VNull])])))
      "lookup_cities" (VObj [("partial_name", VStr "aus")])
    = ([EvHttp (entity_values_call "292" (VStr "city"));
        EvConsoleError "Tool error:" (VStr m)],
       inr (text_result (error_envelope (VStr m) VNull))).
Proof.
  refine (lookup_cities_needs_list_of_strings "292"
            (fixture (Resolved (VObj [("unique_entity_value",
                                       VArr [VStr "Austin"; VNull])])))
            [("partial_name", VStr "aus")] "aus"
            (VObj [("unique_entity_value", VArr [VStr "Austin"; VNull])])
            eq_refl eq_refl _).
  intros [| a [| b [| c cities]]]; simpl; discriminate.
Defined.

(** ** Report types *)

Lemma list_report_types_dispatch FEED_ID apiClient args :
  dispatch FEED_ID apiClient "list_report_types" args
  = bind (perform apiClient (entity_values_call FEED_ID (VStr "Report")))
      (fun data =>
         report_types <- get_prop data "unique_entity_value" ;;
         again <- get_prop data "unique_entity_value" ;;
         count <- get_prop again "length" ;;
         ret (text_result
                (VObj [("status", VStr "success");
                       ("report_types", report_types);
                       ("count", count);
                       ("usage_note", VStr usage_note_reports)]))).
Proof. reflexivity. Qed.

(** X16. [list_report_types] ignores its arguments and wraps what the remote
    body holds under [unique_entity_value], unfiltered: an array is returned
    as it is, whatever its elements, with its length as count; a string is
    returned with its number of code units as count. *)
Theorem list_report_types_wraps_remote_list :
  forall FEED_ID apiClient args data,
    apiClient (entity_values_call FEED_ID (VStr "Report")) = Resolved data ->
    (forall xs,
        member data "unique_entity_value" = VArr xs ->
        callToolHandler FEED_ID apiClient "list_report_types" args
        = ([EvHttp (entity_values_call FEED_ID (VStr "Report"))],
           inr (text_result
                  (VObj [("status", VStr "success");
                         ("report_types", VArr xs);
                         ("count", VNum (Z.of_nat (List.length xs)));
                         ("usage_note",
                          VStr "Use one of these exact report types with search_by_report_type tool")]))))
    /\ (forall s,
        member data "unique_entity_value" = VStr s ->
        snd (callToolHandler FEED_ID apiClient "list_report_types" args)
        = inr (text_result
                 (report_types_payload (VStr s)
                    (VNum (Z.of_nat (String.length s)))))).
Proof.
  intros FEED_ID apiClient args data Hcall.
  assert (Hrun : forall v,
    member data "unique_entity_value" = v -> nullish v = false ->
    callToolHandler FEED_ID apiClient "list_report_types" args
    = ([EvHttp (entity_values_call FEED_ID (VStr "Report"))],
       inr (text_result (report_types_payload v (member v "length"))))).
  { intros v Hv Hnv. unfold callToolHandler.
    rewrite list_report_types_dispatch,
      (bind_perform_resolved apiClient _ _ data Hcall).
    assert (Hdata : nullish data = false)
      by (destruct data; try reflexivity; subst v; discriminate Hnv).
    rewrite !(get_prop_member data), !bind_ret by assumption.
    rewrite Hv, get_prop_member, bind_ret by assumption.
    reflexivity. }
  split.
  - intros xs Hxs. now rewrite (Hrun (VArr xs) Hxs eq_refl).
  - intros s Hs. now rewrite (Hrun (VStr s) Hs eq_refl).
Qed.

Lemma list_report_types_wraps_remote_list_witness :
  callToolHandler "292"
    (fixture (Resolved (VObj [("unique_entity_value",
                               VArr [VStr "Monthly Report: Major Cities"])])))
    "list_report_types" VUndefined
  = ([EvHttp (entity_values_call "292" (VStr "Report"))],
     inr (text_result
            (report_types_payload
               (VArr [VStr "Monthly Report: Major Cities"]) (VNum 1)))).
Proof.
  exact (proj1 (list_report_types_wraps_remote_list "292"
           (fixture (Resolved (VObj [("unique_entity_value",
                                      VArr [VStr "Monthly Report: Major Cities"])])))
           VUndefined
           (VObj [("unique_entity_value",
                   VArr [VStr "Monthly Report: Major Cities"])])
           eq_refl) [VStr "Monthly Report: Major Cities"] eq_refl).
Defined.

(** X17. When the remote body is undefined or null, or holds nothing (or
    null) under [unique_entity_value], [list_report_types] answers with an
    error envelope with null details instead of an empty list. *)
Theorem list_report_types_needs_remote_list :
  forall FEED_ID apiClient args data,
    apiClient (entity_values_call FEED_ID (VStr "Report")) = Resolved data ->
    nullish data = true \/ nullish (member data "unique_entity_value") = true ->
    exists m,
      callToolHandler FEED_ID apiClient "list_report_types" args
      = ([EvHttp (entity_values_call FEED_ID (VStr "Report"));
          EvConsoleError "Tool error:" (VStr m)],
         inr (text_result (error_envelope (VStr m) VNull))).
Proof.
  intros FEED_ID apiClient args data Hcall Hmissing.
  assert (Hthrow : exists m,
    m <> ""
    /\ (report_types <- get_prop data "unique_entity_value" ;;
        again <- get_prop data "unique_entity_value" ;;
        count <- get_prop again "length" ;;
        ret (text_result
               (VObj [("status", VStr "success");
                      ("report_types", report_types);
                      ("count", count);
                      ("usage_note", VStr usage_note_reports)])))
       = throw (TypeError m)).
  { destruct (nullish data) eqn:Hdata.
    - destruct data; try discriminate Hdata;
        (eexists; split; [| reflexivity]; simpl; discriminate).
    - destruct Hmissing as [Hd | Hlist]; [discriminate Hd |].
      rewrite !(get_prop_member data), !bind_ret by assumption.
      destruct (member data "unique_entity_value"); try discriminate Hlist;
        (eexists; split; [| reflexivity]; simpl; discriminate). }
  destruct Hthrow as [m [Hm Hthrow]]. exists m.
  now apply (type_error_after_call _ _ _ _ _ _ data m
               (list_report_types_dispatch FEED_ID apiClient args)).
Qed.

Lemma list_report_types_needs_remote_list_witness :
  exists m,
    callToolHandler "292" (fixture (Resolved (VObj []))) "list_report_types"
      (VObj [])
    = ([EvHttp (entity_values_call "292" (VStr "Report"));
        EvConsoleError "Tool error:" (VStr m)],
       inr (text_result (error_envelope (VStr m) VNull))).
Proof.
  exact (list_report_types_needs_remote_list "292"
           (fixture (Resolved (VObj []))) (VObj []) (VObj [])
           eq_refl (or_intror eq_refl)).
Defined.

(** ** The [catch] block, further *)

(** X18. Whatever was thrown, the envelope of the [catch] block has a truthy
    message, [Unknown error occurred] when neither the remote body nor the
    thrown value gives one, and details that are either null or the truthy
    remote body, never undefined. *)
Theorem error_envelope_is_never_blank :
  forall error,
    exists message details,
      on_error error
      = ([EvConsoleError "Tool error:" message],
         inr (text_result (error_envelope message details)))
      /\ truthy message = true
      /\ (details = VNull
          \/ details = error_response_data error /\ truthy details = true)
      /\ (truthy (remote_message error) = false ->
          error_message error = "" ->
          message = VStr "Unknown error occurred").
Proof.
  intros error. rewrite on_error_eq. do 2 eexists. split; [reflexivity |].
  repeat split.
  - unfold errorMessage, js_or.
    destruct (truthy (remote_message error)) eqn:Hr; [now rewrite Hr |].
    destruct (truthy (VStr (error_message error))) eqn:Hm; [now rewrite Hm |].
    reflexivity.
  - unfold js_or. destruct (truthy (error_response_data error)) eqn:Hd;
      [right; now split | now left].
  - intros Hr Hm. unfold errorMessage, js_or. now rewrite Hr, Hm.
Qed.

Section Logging.

Variable FEED_ID : string.
Variable apiClient : HttpCallSpec -> HttpOutcome.

Lemma dispatch_logs_no_console_error toolName args :
  console_errors (fst (dispatch FEED_ID apiClient toolName args)) = [].
Proof.
  destruct (dispatch_shape FEED_ID apiClient toolName args)
    as [[e [-> _]] | [c [k [-> Hk]]]]; [reflexivity |].
  now rewrite fst_perform_then by assumption.
Qed.

Lemma console_errors_app (log log' : list event) :
  console_errors (log ++ log') = (console_errors log ++ console_errors log')%list.
Proof.
  induction log as [| [c | l v] log IH]; simpl; [reflexivity | exact IH |].
  now rewrite IH.
Qed.

End Logging.

(** X19. [console.error] is written once per failed invocation, with the
    label [Tool error:] and the message of the returned envelope, and never
    when the [try] block returns, whose result is then returned as it
    is. *)
Theorem console_error_once_per_failure :
  forall FEED_ID apiClient toolName args,
    (forall result,
        snd (dispatch FEED_ID apiClient toolName args) = inr result ->
        console_errors (fst (callToolHandler FEED_ID apiClient toolName args)) = []
        /\ snd (callToolHandler FEED_ID apiClient toolName args) = inr result)
    /\ (forall error,
        snd (dispatch FEED_ID apiClient toolName args) = inl error ->
        exists message details,
          console_errors (fst (callToolHandler FEED_ID apiClient toolName args))
          = [("Tool error:", message)]
          /\ snd (callToolHandler FEED_ID apiClient toolName args)
             = inr (text_result (error_envelope message details))).
Proof.
  intros FEED_ID apiClient toolName args.
  pose proof (dispatch_logs_no_console_error FEED_ID apiClient toolName args) as Hlog.
  unfold callToolHandler, try_catch.
  destruct (dispatch FEED_ID apiClient toolName args) as [log [e | r]];
    simpl in Hlog; split.
  - intros result E. discriminate E.
  - intros error E. injection E as <-. rewrite on_error_eq. simpl.
    do 2 eexists. split; [| reflexivity].
    now rewrite console_errors_app, Hlog.
  - intros result E. injection E as <-. simpl. now split.
  - intros error E. discriminate E.
Qed.

(** ** Configuration *)



Lemma feed_tool_call FEED_ID apiClient toolName args :
  In toolName feed_tools ->
  nullish args = false ->
  exists body,
    http_calls (fst (callToolHandler FEED_ID apiClient toolName args))
    = [feed_call body]
    /\ member body "feed_id" = parseInt FEED_ID.
Proof.
  intros Hin Hargs. rewrite callToolHandler_calls. simpl in Hin.
  repeat (destruct Hin as [<- | Hin]); try contradiction; switch;
    rewrite !get_prop_member, !bind_ret by assumption;
    rewrite fst_perform_then by (intro; silence);
    (eexists; split; reflexivity).
Qed.

(** X21. With [FEED_ID] unset or empty in the environment, the server
    starts with feed 292 and every query a search tool posts carries the
    number 292 as [feed_id]. *)
Theorem default_feed_is_292 :
  forall env base feed client apiClient toolName args,
    startup env = Started base feed client ->
    env "FEED_ID" = None \/ env "FEED_ID" = Some "" ->
    In toolName feed_tools ->
    nullish args = false ->
    exists body,
      http_calls (fst (callToolHandler feed apiClient toolName args))
      = [feed_call body]
      /\ member body "feed_id" = VNum 292.
Proof.
  intros env base feed client apiClient toolName args Hstart Hfeed Hin Hargs.
  assert (E : feed = "292").
  { unfold startup in Hstart.
    destruct (env_missing (env "API_KEY") || env_missing (env "SECRET_KEY"));
      [discriminate Hstart |].
    injection Hstart as _ <- _. now destruct Hfeed as [-> | ->]. }
  subst feed. apply (feed_tool_call "292" apiClient toolName args Hin Hargs).
Qed.

Lemma default_feed_is_292_witness :
  exists body,
    http_calls
      (fst (callToolHandler "292" (fixture (Resolved (VObj [])))
              "search_by_city" (VObj [("city_name", VStr "Austin")])))
    = [feed_call body]
    /\ member body "feed_id" = VNum 292.
Proof.
  exact (default_feed_is_292
           (fun name =>
              if (name =? "API_KEY")%string then Some "key"
              else if (name =? "SECRET_KEY")%string then Some "secret"
              else None)
           "https://feeds.parsym.com" "292"
           (mkClient "https://feeds.parsym.com"
              [("Content-Type", "application/json");
               ("api-key", "key"); ("secret", "secret")])
           (fixture (Resolved (VObj []))) "search_by_city"
           (VObj [("city_name", VStr "Austin")])
           eq_refl (or_introl eq_refl)
           (or_intror (or_introl eq_refl)) eq_refl).
Defined.

(** ** The listing against the handler *)

(** X22. For the three tools that default their pagination, the defaults
    the listing declares are the values the handler posts when the argument
    is left out. *)
Theorem declared_defaults_are_applied :
  forall FEED_ID apiClient listed name parameter schema default props,
    In listed listed_tools ->
    member listed "name" = VStr name ->
    In name defaulting_tools ->
    own_property parameter
      (properties_of (member (member listed "inputSchema") "properties"))
    = Some schema ->
    own_property "default" (properties_of schema) = Some default ->
    own_property parameter props = None ->
    exists body,
      http_calls (fst (callToolHandler FEED_ID apiClient name (VObj props)))
      = [feed_call body]
      /\ member body parameter = default.
Proof.
  intros FEED_ID apiClient listed name parameter schema default props
         Hlisted Hname Hin Hschema Hdefault Hnone.
  unfold listed_tools in Hlisted. simpl in Hlisted.
  repeat (destruct Hlisted as [<- | Hlisted]); try contradiction;
    vm_compute in Hname; injection Hname as <-;
    simpl in Hin;
    repeat (destruct Hin as [Hin | Hin]; [try discriminate Hin |]);
    try contradiction;
    unfold tool in Hschema;
    cbn [member own_property properties_of String.eqb Ascii.eqb Bool.eqb andb]
      in Hschema;
    repeat match type of Hschema with
    | context [(parameter =? ?k)%string] =>
        destruct (String.eqb_spec parameter k) as [-> | _]
    end;
    try discriminate Hschema;
    injection Hschema as <-; try discriminate Hdefault;
    injection Hdefault as <-;
    rewrite callToolHandler_calls; switch;
    rewrite !get_prop_member, !bind_ret, fst_perform_then
      by (reflexivity || (intro; silence));
    (eexists; split; [reflexivity |]);
    cbn [member own_property String.eqb Ascii.eqb Bool.eqb andb];
    rewrite Hnone; reflexivity.
Qed.

Lemma declared_defaults_are_applied_witness :
  exists body,
    http_calls
      (fst (callToolHandler "292" (fixture (Resolved (VObj [])))
              "search_by_city" (VObj [("city_name", VStr "Austin")])))
    = [feed_call body]
    /\ member body "page_size" = VNum 10.
Proof.
  refine (declared_defaults_are_applied "292" (fixture (Resolved (VObj [])))
            (tool "search_by_city"
               "Search for real estate content by city name. IMPORTANT: The API requires exact city name matching. Use lookup_cities first to find the correct name format to use."
               [("city_name",
                 string_param "Exact city name to search for (must match format in database exactly)");
                ("page_num", page_num_param);
                ("page_size", page_size_param)]
               ["city_name"])
            "search_by_city" "page_size" page_size_param (VNum 10)
            [("city_name", VStr "Austin")] _ eq_refl _ eq_refl eq_refl eq_refl).
  - unfold listed_tools. simpl. tauto.
  - simpl. tauto.
Defined.

(** ** The feed id *)

Lemma leading_digits_acc (d : Decimal.uint) (acc : positive) :
  leading_digits 10 (Some (Z.pos acc)) (DecimalString.NilEmpty.string_of_uint d)
  = Some (Z.pos (Pos.of_uint_acc d acc)).
Proof.
  revert acc. induction d; intros acc; [reflexivity | ..];
    cbn [DecimalString.NilEmpty.string_of_uint leading_digits Pos.of_uint_acc];
    match goal with
    | |- context [digit_value 10 ?c] =>
        let v := eval vm_compute in (digit_value 10 c) in
        change (digit_value 10 c) with v
    end;
    cbv beta iota; rewrite <- IHd; do 2 f_equal; lia.
Qed.

Lemma parseInt_NumberToString (n : Z) : parseInt (NumberToString n) = VNum n.
Proof.
  unfold NumberToString.
  pose proof (DecimalZ.of_to n) as Hof. pose proof (to_int_norm n) as Hnorm.
  destruct (Z.to_int n) as [d | d]; simpl in Hnorm.
  - injection Hnorm as Hnorm.
    destruct d; try discriminate Hnorm;
      try (unfold parseInt; simpl; rewrite leading_digits_acc;
           f_equal; exact Hof).
    apply unorm_no_leading_zero in Hnorm as ->. simpl in Hof. now subst n.
  - destruct (Decimal.nzhead d) eqn:Hhead; try discriminate Hnorm;
      injection Hnorm as Hnorm; subst d;
      try (unfold parseInt; simpl; rewrite leading_digits_acc;
           f_equal; exact Hof).
    now apply nzhead_no_leading_zero in Hhead.
Qed.

(** X23. When [FEED_ID] is the decimal text of an integer (within the safe
    integers), every query a search tool posts carries that integer as
    [feed_id]. *)
Theorem feed_id_is_the_configured_number :
  forall n apiClient toolName args,
    - 2 ^ 53 <= n <= 2 ^ 53 ->
    In toolName feed_tools ->
    nullish args = false ->
    exists body,
      http_calls
        (fst (callToolHandler (NumberToString n) apiClient toolName args))
      = [feed_call body]
      /\ member body "feed_id" = VNum n.
Proof.
  intros n apiClient toolName args _ Hin Hargs.
  destruct (feed_tool_call (NumberToString n) apiClient toolName args Hin Hargs)
    as [body [Hcalls Hfeed]].
  exists body. split; [exact Hcalls |].
  now rewrite Hfeed, parseInt_NumberToString.
Qed.

Lemma feed_id_is_the_configured_number_witness :
  exists body,
    http_calls
      (fst (callToolHandler "17" (fixture (Resolved (VObj [])))
              "advanced_content_search" (VObj [])))
    = [feed_call body]
    /\ member body "feed_id" = VNum 17.
Proof.
  exact (feed_id_is_the_configured_number 17 (fixture (Resolved (VObj [])))
           "advanced_content_search" (VObj [])
           ltac:(lia) ltac:(simpl; tauto) eq_refl).
Defined.

(** ** Remote failures, further *)

(** X24. The answer to a rejected call depends on the rejection alone: two
    invocations, of any tools, whose calls are rejected with the same
    message and response get the same result. *)
Theorem rejection_answer_is_the_same_for_every_tool :
  forall FEED_ID apiClient tool1 args1 tool2 args2 c1 c2 message response,
    In c1 (http_calls (fst (callToolHandler FEED_ID apiClient tool1 args1))) ->
    In c2 (http_calls (fst (callToolHandler FEED_ID apiClient tool2 args2))) ->
    apiClient c1 = Rejected message response ->
    apiClient c2 = Rejected message response ->
    snd (callToolHandler FEED_ID apiClient tool1 args1)
    = snd (callToolHandler FEED_ID apiClient tool2 args2).
Proof.
  intros FEED_ID apiClient tool1 args1 tool2 args2 c1 c2 message response
         H1 H2 R1 R2.
  now rewrite (rejected_call_result _ _ _ _ _ _ _ H1 R1),
    (rejected_call_result _ _ _ _ _ _ _ H2 R2).
Qed.

Lemma rejection_answer_is_the_same_for_every_tool_witness :
  snd (callToolHandler "292" (fixture (Rejected "Network Error" None))
         "list_available_entity_types" VUndefined)
  = snd (callToolHandler "292" (fixture (Rejected "Network Error" None))
           "search_by_city" (VObj [("city_name", VStr "Austin")])).
Proof.
  refine (rejection_answer_is_the_same_for_every_tool "292"
            (fixture (Rejected "Network Error" None))
            "list_available_entity_types" VUndefined
            "search_by_city" (VObj [("city_name", VStr "Austin")])
            (entity_types_call "292") (feed_call _) "Network Error" None
            _ _ eq_refl eq_refl).
  - left; reflexivity.
  - left; reflexivity.
Defined.

(** X25. A rejected call whose response body is truthy but offers no truthy
    [message] (a text body such as an error page, an array, an object
    without that property) is answered with the transport-level message,
    when that is not empty, and the body as details. *)
Theorem remote_body_without_message :
  forall FEED_ID apiClient toolName args c message body,
    In c (http_calls (fst (callToolHandler FEED_ID apiClient toolName args))) ->
    apiClient c = Rejected message (Some body) ->
    truthy body = true ->
    truthy (member body "message") = false ->
    message <> "" ->
    snd (callToolHandler FEED_ID apiClient toolName args)
    = inr (text_result (error_envelope (VStr message) body)).
Proof.
  intros FEED_ID apiClient toolName args c message body Hc Hrej Hbody Hmsg Hm.
  rewrite (rejected_call_result _ _ _ _ _ _ _ Hc Hrej).
  unfold errorMessage, remote_message, js_or.
  cbn [error_response_data error_message]. rewrite Hbody.
  destruct body; try discriminate Hbody; rewrite Hmsg; simpl;
    destruct (String.eqb_spec message ""); (contradiction || reflexivity).
Qed.

Lemma remote_body_without_message_witness :
  snd (callToolHandler "292"
         (fixture (Rejected "Request failed with status code 502"
                     (Some (VStr "Bad Gateway"))))
         "list_report_types" VUndefined)
  = inr (text_result
           (error_envelope (VStr "Request failed with status code 502")
              (VStr "Bad Gateway"))).
Proof.
  refine (remote_body_without_message "292"
            (fixture (Rejected "Request failed with status code 502"
                        (Some (VStr "Bad Gateway"))))
            "list_report_types" VUndefined
            (entity_values_call "292" (VStr "Report"))
            "Request failed with status code 502" (VStr "Bad Gateway")
            _ eq_refl eq_refl eq_refl _).
  - left; reflexivity.
  - discriminate.
Defined.

(** ** The texts the handler builds itself *)

Lemma is_json_member (v : value) (k : string) :
  is_json v = true ->
  member v k = VUndefined \/ is_json (member v k) = true.
Proof.
  destruct v as [| | b | n | | s | xs | ps]; simpl; try (now left).
  - destruct (k =? "length")%string; [now right | now left].
  - destruct (k =? "length")%string; [now right | now left].
  - intros H. apply andb_true_iff in H as [_ H].
    induction ps as [| [k' v'] ps IH]; simpl in *; [now left |].
    apply andb_true_iff in H as [Hv Hps].
    destruct (k =? k')%string; [now right | now apply IH].
Qed.

Lemma truthy_defined (v : value) : truthy v = true -> v <> VUndefined.
Proof. intros H ->. discriminate H. Qed.

Lemma is_json_strings (l : list string) : forallb is_json (map VStr l) = true.
Proof. induction l; simpl; auto. Qed.

Lemma safe_numbers_message (v : value) :
  safe_numbers v = true -> safe_numbers (member v "message") = true.
Proof.
  destruct v as [| | b | n | | s | xs | ps]; try reflexivity.
  cbn [safe_numbers member]. intros H.
  induction ps as [| [k' v'] ps IH]; [reflexivity |].
  cbn [forallb snd] in H. apply andb_true_iff in H as [Hv Hps].
  cbn [own_property].
  destruct ("message" =? k')%string; [exact Hv | now apply IH].
Qed.

(** X26. The text of an error answer can always be parsed back: whenever
    the remote body, if there is one, is JSON whose numbers are safe
    integers, parsing the text gives the object with exactly the properties
    [status], [message] and [details], whose numbers are safe integers
    too. *)
Theorem error_text_parses_back :
  forall error,
    error_response_data error = VUndefined
    \/ is_json (error_response_data error) = true
       /\ safe_numbers (error_response_data error) = true ->
    exists message details payload,
      on_error error
      = ([EvConsoleError "Tool error:" message],
         inr (mkResult [mkText "text" (Some payload)]))
      /\ JSON_parse payload
         = Some (VObj [("status", VStr "error");
                       ("message", message);
                       ("details", details)])
      /\ safe_numbers (VObj [("status", VStr "error");
                             ("message", message);
                             ("details", details)]) = true.
Proof.
  intros error Hdata. rewrite on_error_eq.
  set (message := errorMessage error).
  set (details := js_or (error_response_data error) VNull).
  assert (Hsafe : safe_numbers (error_response_data error) = true)
    by (destruct Hdata as [-> | [_ H]]; [reflexivity | exact H]).
  assert (Hmessage : is_json message = true /\ safe_numbers message = true).
  { unfold message, errorMessage, js_or.
    destruct (truthy (remote_message error)) eqn:Hr; cbv beta iota.
    - rewrite Hr. pose proof (truthy_defined _ Hr) as Hdef.
      unfold remote_message in *. split.
      + destruct Hdata as [Hd | [Hd _]]; [now rewrite Hd in Hdef |].
        destruct (is_json_member (error_response_data error) "message" Hd)
          as [Hu | Hj];
          destruct (error_response_data error); try discriminate Hd;
          try (now destruct Hdef); try exact Hj; now rewrite Hu in Hdef.
      + pose proof (safe_numbers_message _ Hsafe) as Hm.
        now destruct (error_response_data error).
    - now destruct (truthy (VStr (error_message error))). }
  assert (Hdetails : is_json details = true /\ safe_numbers details = true).
  { unfold details, js_or.
    destruct (truthy (error_response_data error)) eqn:Hd; [| now split].
    destruct Hdata as [Hu | [Hj _]]; [| now split].
    rewrite Hu in Hd. discriminate Hd. }
  destruct Hmessage as [Hmj Hms]. destruct Hdetails as [Hdj Hds].
  assert (Hjson : is_json (error_envelope message details) = true)
    by (simpl; now rewrite Hmj, Hdj).
  destruct (JSON_parse_stringify _ Hjson) as [payload [Hser Hparse]].
  exists message, details, payload. split; [| split; [exact Hparse |]].
  - unfold text_result. now rewrite Hser.
  - simpl. now rewrite Hms, Hds.
Qed.

Lemma error_text_parses_back_witness :
  exists message details payload,
    on_error
      (AxiosError "Request failed with status code 500"
         (Some (VObj [("message", VStr "server error"); ("code", VNum 500)])))
    = ([EvConsoleError "Tool error:" message],
       inr (mkResult [mkText "text" (Some payload)]))
    /\ JSON_parse payload
       = Some (VObj [("status", VStr "error");
                     ("message", message);
                     ("details", details)])
    /\ safe_numbers (VObj [("status", VStr "error");
                           ("message", message);
                           ("details", details)]) = true.
Proof.
  exact (error_text_parses_back
           (AxiosError "Request failed with status code 500"
              (Some (VObj [("message", VStr "server error"); ("code", VNum 500)])))
           (or_intror (conj eq_refl eq_refl))).
Defined.

(** X27. The text [lookup_cities] returns for a string and a list of city
    strings parses back to the object with [status], [matched_cities],
    [count] and [usage_note], every matched city being a string of the
    remote list. *)
Theorem lookup_text_parses_back :
  forall FEED_ID apiClient props partial_name data cities,
    own_property "partial_name" props = Some (VStr partial_name) ->
    apiClient (entity_values_call FEED_ID (VStr "city")) = Resolved data ->
    member data "unique_entity_value" = VArr (map VStr cities) ->
    exists payload matchedCities,
      snd (callToolHandler FEED_ID apiClient "lookup_cities" (VObj props))
      = inr (mkResult [mkText "text" (Some payload)])
      /\ JSON_parse payload = Some (lookup_payload matchedCities)
      /\ (List.length matchedCities <= List.length cities)%nat
      /\ forall city, In city matchedCities -> In city cities.
Proof.
  intros FEED_ID apiClient props partial_name data cities Hname Hcall Hlist.
  rewrite (lookup_cities_run _ _ _ _ _ _ Hname Hcall Hlist).
  set (matchedCities :=
         filter (fun city => includes (toLowerCase city) (toLowerCase partial_name))
                cities).
  assert (Hjson : is_json (lookup_payload matchedCities) = true)
    by (simpl; now rewrite is_json_strings).
  destruct (JSON_parse_stringify _ Hjson) as [payload [Hser Hparse]].
  exists payload, matchedCities. repeat split.
  - simpl. unfold text_result. now rewrite Hser.
  - exact Hparse.
  - apply filter_length_le.
  - intros city Hin. now apply filter_In in Hin.
Qed.

Lemma lookup_text_parses_back_witness :
  exists payload matchedCities,
    snd (callToolHandler "292"
           (fixture (Resolved (VObj [("unique_entity_value",
                                      VArr [VStr "Austin"; VStr "Boston"])])))
           "lookup_cities" (VObj [("partial_name", VStr "bos")]))
    = inr (mkResult [mkText "text" (Some payload)])
    /\ JSON_parse payload = Some (lookup_payload matchedCities).
Proof.
  destruct (lookup_text_parses_back "292"
              (fixture (Resolved (VObj [("unique_entity_value",
                                         VArr [VStr "Austin"; VStr "Boston"])])))
              [("partial_name", VStr "bos")] "bos"
              (VObj [("unique_entity_value", VArr [VStr "Austin"; VStr "Boston"])])
              ["Austin"; "Boston"] eq_refl eq_refl eq_refl)
    as [payload [matched [Hrun [Hparse _]]]].
  exists payload, matched. split; assumption.
Defined.
